(** * userbus: the user-account business layer

    A shallow embedding of [business/domain/userbus/userbus.go] and of the
    parts of its collaborators that the business layer observes: Go's error
    values ([errors.New], [fmt.Errorf] with [%w], [errors.Is]), the bcrypt
    password hash, the storage port [Storer], the delegate (event emission)
    and the plugin chain built by [NewBusiness].

    Conventions.
    - A Go function returning [(T, error)] is a function returning the pair
      [(T * option error)]; [None] is the nil error.
    - Code with effects (storage, delegate, clock, identifiers, entropy,
      tracing spans) is a state-passing function over [World].
    - [context.Context] carries cancellation and the tracing span only; the
      spans are recorded in the trace of the [World] and the parameter itself
      is dropped. *)

From Stdlib Require Import String Ascii List ZArith NArith Lia Bool.
From Stdlib.Strings Require Import Byte.
Import ListNotations.
Open Scope string_scope.

Set Implicit Arguments.

(* ================================================================= *)
(** ** Go error values *)

(** The dynamic error values that occur in this package: the value made by
    [errors.New] and the value made by [fmt.Errorf] with one [%w] verb, which
    keeps its formatted message and the error it wraps. *)
Inductive error : Type :=
| errorString (s : string)
| wrapError (msg : string) (err : error).

Module errors.

Definition New (text : string) : error := errorString text.

(** The [Error] method. *)
Definition Error (e : error) : string :=
  match e with
  | errorString s => s
  | wrapError msg _ => msg
  end.

Definition Unwrap (e : error) : option error :=
  match e with
  | errorString _ => None
  | wrapError _ err => Some err
  end.

(** Comparison of two error values.  Go compares the sentinels by
    identity; every sentinel of this program is made once, at package
    level, with a text of its own, so identity and structure agree. *)
Fixpoint eqb (a b : error) : bool :=
  match a, b with
  | errorString s, errorString t => String.eqb s t
  | wrapError m x, wrapError n y => String.eqb m n && eqb x y
  | _, _ => false
  end.

(** [errors.Is]: walk the chain of [Unwrap], comparing each link. *)
Fixpoint Is (err target : error) : bool :=
  eqb err target ||
  match err with
  | errorString _ => false
  | wrapError _ inner => Is inner target
  end.

(** The innermost error of the chain: what is left when [Unwrap] has been
    applied until it yields nothing. *)
Fixpoint cause (e : error) : error :=
  match e with
  | errorString _ => e
  | wrapError _ inner => cause inner
  end.

(** The number of wrappers around the innermost error. *)
Fixpoint depth (e : error) : nat :=
  match e with
  | errorString _ => 0
  | wrapError _ inner => S (depth inner)
  end.

End errors.

Module fmt.

(** [fmt.Errorf(prefix + "%w", err)]: the message is the prefix followed by
    the message of [err], and [Unwrap] gives [err] back. *)
Definition Errorf_w (prefix : string) (err : error) : error :=
  wrapError (prefix ++ errors.Error err) err.

End fmt.

(* ================================================================= *)
(** ** Bytes and identifiers *)

Definition bytes := list byte.

Definition byte_of_N (n : N) : byte :=
  match Byte.of_N n with
  | Some b => b
  | None => x00
  end.

(** [fit n l]: the first [n] bytes of a zeroed buffer of [n] bytes into
    which [l] was copied ([make] followed by [copy]). *)
Definition fit (n : nat) (l : bytes) : bytes :=
  firstn n (l ++ repeat x00 n).

Definition bytes_eqb (a b : bytes) : bool :=
  if list_eq_dec Byte.byte_eq_dec a b then true else false.

Module uuid.

(** [uuid.UUID] is [[16]byte]. *)
Definition UUID := bytes.

Definition Nil : UUID := repeat x00 16.

Definition hexdigit (n : N) : ascii :=
  match n with
  | 0 => "0" | 1 => "1" | 2 => "2" | 3 => "3" | 4 => "4" | 5 => "5"
  | 6 => "6" | 7 => "7" | 8 => "8" | 9 => "9" | 10 => "a" | 11 => "b"
  | 12 => "c" | 13 => "d" | 14 => "e" | _ => "f"
  end%N%char.

Fixpoint encodeHex (l : bytes) : string :=
  match l with
  | [] => EmptyString
  | b :: r =>
      String (hexdigit (Byte.to_N b / 16))
        (String (hexdigit (Byte.to_N b mod 16)) (encodeHex r))
  end.

(** The [String] method: xxxxxxxx-xxxx-xxxx-xxxx-xxxxxxxxxxxx. *)
Definition String (u : UUID) : string :=
  let u := fit 16 u in
  encodeHex (firstn 4 u) ++ "-" ++
  encodeHex (firstn 2 (skipn 4 u)) ++ "-" ++
  encodeHex (firstn 2 (skipn 6 u)) ++ "-" ++
  encodeHex (firstn 2 (skipn 8 u)) ++ "-" ++
  encodeHex (skipn 10 u).

End uuid.

Module mail.

(** [mail.Address]: a display name and the address proper. *)
Record Address : Type := mkAddress { Name : string; Addr : string }.

(** What the verb [%s] prints for an [Address] passed by value: the
    [String] method has a pointer receiver, so the struct is printed field
    by field, between braces. *)
Definition format_s (a : Address) : string :=
  "{" ++ Name a ++ " " ++ Addr a ++ "}".

End mail.

(* ================================================================= *)
(** ** The user records *)

Definition Time := Z.
Definition Role := string.

(** A Go slice that the code tests against nil. *)
Definition slice (A : Type) := option (list A).

(** Modelled from the spec: the [User] record of model.go, which is not
    among the sources at hand.  Section 3 of the specification lists the
    fields; the business code fixes how each is used. *)
Record User : Type := mkUser {
  ID : uuid.UUID;
  Name : string;
  Email : mail.Address;
  Roles : slice Role;
  PasswordHash : bytes;
  Department : option string;
  Enabled : bool;
  DateCreated : Time;
  DateUpdated : Time
}.

(** [User{}]. *)
Definition User_zero : User :=
  mkUser uuid.Nil "" (mail.mkAddress "" "") None [] None false 0%Z 0%Z.

(** Modelled from the spec: the creation request of model.go. *)
Record NewUser : Type := mkNewUser {
  nu_Name : string;
  nu_Email : mail.Address;
  nu_Roles : slice Role;
  nu_Department : option string;
  nu_Password : string
}.

(** Modelled from the spec: the partial update of model.go.  A pointer field
    is an [option]; [uu_Roles] is a slice, absent when nil. *)
Record UpdateUser : Type := mkUpdateUser {
  uu_Name : option string;
  uu_Email : option mail.Address;
  uu_Roles : slice Role;
  uu_Department : option (option string);
  uu_Password : option string;
  uu_Enabled : option bool
}.

(* ================================================================= *)
(** ** What the package takes from its surroundings *)

(** The types that the business layer only passes along, the state behind
    the ports, the two constants of event.go and the cipher under bcrypt.
    [blowfish key cost salt] stands for the expensive Blowfish key setup
    followed by the encryption of the magic text, on the key material that
    the key schedule reads; it fails when the salt does not decode. *)
Class Platform : Type := {
  Env : Type;
  Logger : Type;
  CommitRollbacker : Type;
  QueryFilter : Type;
  OrderBy : Type;
  Page : Type;
  DomainName : string;
  ActionDeleted : string;
  blowfish : bytes -> nat -> bytes -> bytes * option error
}.

Module delegate.

(** Modelled from the spec: the event handed to the event-emission port,
    [delegate.Data]; [RawParams] carries the identifier of the user. *)
Record Data : Type := mkData {
  Domain : string;
  Action : string;
  RawParams : uuid.UUID
}.

End delegate.

Section World.

Context {P : Platform}.

(** A call that reached the storage port. *)
Inductive StorerOp : Type :=
| OpCreate (usr : User)
| OpUpdate (usr : User)
| OpDelete (usr : User)
| OpQuery (filter : QueryFilter) (orderBy : OrderBy) (page : Page)
| OpCount (filter : QueryFilter)
| OpQueryByID (userID : uuid.UUID)
| OpQueryByEmail (email : mail.Address).

(** What an observer of the ports and of the tracer sees, in order. *)
Inductive Event : Type :=
| SpanStart (name : string)
| SpanEnd (name : string)
| StorerCall (op : StorerOp)
| DelegateCall (data : delegate.Data)
| PluginEnter (name : string)
| PluginExit (name : string).

(** The surroundings of a call: the state behind the ports, the events so
    far, and the sources the code reads: [time.Now], [uuid.New] and the
    system's random bytes.  [reads] counts the values drawn so far. *)
Record World : Type := mkWorld {
  env : Env;
  trace : list Event;
  clock : nat -> Time;
  uuids : nat -> uuid.UUID;
  entropy : nat -> option bytes;
  reads : nat
}.

Definition IO (A : Type) : Type := World -> A * World.

Definition emit (e : Event) : IO unit :=
  fun w => (tt, mkWorld (env w) (trace w ++ [e]) (clock w) (uuids w)
                        (entropy w) (reads w)).

Definition set_env (e : Env) (w : World) : World :=
  mkWorld e (trace w) (clock w) (uuids w) (entropy w) (reads w).

Definition tick (w : World) : World :=
  mkWorld (env w) (trace w) (clock w) (uuids w) (entropy w) (S (reads w)).

(** [time.Now()]. *)
Definition time_Now : IO Time :=
  fun w => (clock w (reads w), tick w).

(** [uuid.New()]. *)
Definition uuid_New : IO uuid.UUID :=
  fun w => (fit 16 (uuids w (reads w)), tick w).

(** [io.ReadFull(rand.Reader, buf)] on a fresh buffer of [n] bytes. *)
Definition rand_Read (n : nat) : IO (bytes * option error) :=
  fun w =>
    match entropy w (reads w) with
    | Some bs => ((fit n bs, None), tick w)
    | None => ((repeat x00 n, Some (errors.New "unexpected EOF")), tick w)
    end.

(** [otel.AddSpan] at the start of a method and the deferred [span.End]:
    the span is closed on every way out. *)
Definition with_span {A : Type} (name : string) (body : IO A) : IO A :=
  fun w =>
    let (_, w1) := emit (SpanStart name) w in
    let (r, w2) := body w1 in
    let (_, w3) := emit (SpanEnd name) w2 in
    (r, w3).

End World.

(* ================================================================= *)
(** ** golang.org/x/crypto/bcrypt

    The two functions that the business layer calls,
    [GenerateFromPassword] and [CompareHashAndPassword], with the helpers
    they go through, after the source of the library.  The cipher is the
    parameter [blowfish] of the platform; everything around it (the bound of
    72 bytes, the salt, the layout of the 60 bytes of a hash and its
    parsing) is written out. *)

Module bcrypt.
Local Open Scope list_scope.

Section Bcrypt.

Context {P : Platform}.

Definition MinCost : nat := 4.
Definition MaxCost : nat := 31.
Definition DefaultCost : nat := 10.

Definition majorVersion : byte := "2"%byte.
Definition minorVersion : byte := "a"%byte.
Definition maxSaltSize : nat := 16.
Definition encodedSaltSize : nat := 22.
Definition encodedHashSize : nat := 31.
Definition minHashSize : nat := 59.

(** The errors of the package.  Those that Go declares as types of their
    own ([InvalidHashPrefixError], [HashVersionTooNewError],
    [InvalidCostError]) and the syntax error of [strconv.Atoi] are
    represented by one value each, with the fixed part of their text. *)
Definition ErrMismatchedHashAndPassword : error :=
  errors.New "crypto/bcrypt: hashedPassword is not the hash of the given password".
Definition ErrHashTooShort : error :=
  errors.New "crypto/bcrypt: hashedSecret too short to be a bcrypted password".
Definition ErrPasswordTooLong : error :=
  errors.New "bcrypt: password length exceeds 72 bytes".
Definition InvalidHashPrefixError : error :=
  errors.New "crypto/bcrypt: bcrypt hashes must start with '$'".
Definition HashVersionTooNewError : error :=
  errors.New "crypto/bcrypt: bcrypt algorithm version requested is newer than current version".
Definition InvalidCostError : error :=
  errors.New "crypto/bcrypt: cost is outside allowed inclusive range 4..31".
Definition ErrSyntax : error :=
  errors.New "strconv.Atoi: invalid syntax".

(** *** The base64 dialect of bcrypt, without padding *)

Definition alphabet : bytes :=
  list_byte_of_string
    "./ABCDEFGHIJKLMNOPQRSTUVWXYZabcdefghijklmnopqrstuvwxyz0123456789".

Definition enc (n : N) : byte := nth (N.to_nat (n mod 64)) alphabet x00.

Fixpoint base64Encode (src : bytes) : bytes :=
  match src with
  | a :: b :: c :: rest =>
      let v := (Byte.to_N a * 65536 + Byte.to_N b * 256 + Byte.to_N c)%N in
      enc (v / 262144) :: enc (v / 4096) :: enc (v / 64) :: enc v
        :: base64Encode rest
  | [a; b] =>
      let v := (Byte.to_N a * 65536 + Byte.to_N b * 256)%N in
      [enc (v / 262144); enc (v / 4096); enc (v / 64)]
  | [a] =>
      let v := (Byte.to_N a * 65536)%N in
      [enc (v / 262144); enc (v / 4096)]
  | [] => []
  end.

(** *** The hashed password *)

Record hashed : Type := mkHashed {
  hash : bytes;
  salt : bytes;
  cost : nat;
  major : byte;
  minor : byte
}.

Definition digit (n : nat) : byte := byte_of_N (48 + N.of_nat (n mod 10)).

(** [fmt.Sprintf("%02d", cost)] for a cost that passed [checkCost]. *)
Definition format_cost (c : nat) : bytes := [digit (c / 10); digit c].

(** The [Hash] method: the pieces are copied into an array of 60 bytes,
    the salt over [encodedSaltSize] bytes and the digest over
    [encodedHashSize] bytes. *)
Definition Hash (p : hashed) : bytes :=
  ["$"%byte; major p]
    ++ (if Byte.eqb (minor p) x00 then [] else [minor p])
    ++ ["$"%byte] ++ format_cost (cost p) ++ ["$"%byte]
    ++ fit encodedSaltSize (salt p)
    ++ fit encodedHashSize (hash p).

Definition checkCost (c : Z) : option error :=
  if (c <? Z.of_nat MinCost)%Z || (Z.of_nat MaxCost <? c)%Z
  then Some InvalidCostError else None.

(** The key material that the Blowfish key schedule reads: 18 words of 32
    bits taken from the password followed by a zero byte, starting over
    at its end. *)
Definition key_material (password : bytes) : bytes :=
  let ckey := password ++ [x00] in
  firstn 72 (concat (repeat ckey 72)).

(** [bcrypt(password, cost, salt)]. *)
Definition bcrypt (password : bytes) (c : nat) (s : bytes)
  : bytes * option error :=
  blowfish (key_material password) c s.

Definition newFromPassword (password : bytes) (c : nat)
  : IO (option hashed * option error) :=
  fun w =>
    let c := if (c <? MinCost)%nat then DefaultCost else c in
    match checkCost (Z.of_nat c) with
    | Some err => ((None, Some err), w)
    | None =>
        let '((unencodedSalt, err), w1) := rand_Read maxSaltSize w in
        match err with
        | Some err => ((None, Some err), w1)
        | None =>
            let s := base64Encode unencodedSalt in
            match bcrypt password c s with
            | (_, Some err) => ((None, Some err), w1)
            | (h, None) =>
                ((Some (mkHashed h s c majorVersion minorVersion), None), w1)
            end
        end
    end.

(** [GenerateFromPassword]: passwords of more than 72 bytes are
    refused. *)
Definition GenerateFromPassword (password : bytes) (c : nat)
  : IO (bytes * option error) :=
  fun w =>
    if (72 <? length password)%nat then (([], Some ErrPasswordTooLong), w)
    else
      match newFromPassword password c w with
      | ((Some p, None), w1) => ((Hash p, None), w1)
      | ((_, Some err), w1) => (([], Some err), w1)
      | ((None, None), w1) => (([], None), w1) (* does not occur *)
      end.

(** [strconv.Atoi] on the two bytes of the cost. *)
Definition digit_value (b : byte) : option Z :=
  let n := Byte.to_N b in
  if ((48 <=? n) && (n <=? 57))%N then Some (Z.of_N n - 48)%Z else None.

Definition Atoi2 (a b : byte) : Z * option error :=
  if Byte.eqb a "+"%byte then
    match digit_value b with
    | Some d => (d, None)
    | None => (0%Z, Some ErrSyntax)
    end
  else if Byte.eqb a "-"%byte then
    match digit_value b with
    | Some d => ((- d)%Z, None)
    | None => (0%Z, Some ErrSyntax)
    end
  else
    match digit_value a, digit_value b with
    | Some x, Some y => ((10 * x + y)%Z, None)
    | _, _ => (0%Z, Some ErrSyntax)
    end.

(** [newFromHash]: version, cost, then 22 bytes of salt; the rest is the
    digest. *)
Definition newFromHash (hashedSecret : bytes) : option hashed * option error :=
  if (length hashedSecret <? minHashSize)%nat then (None, Some ErrHashTooShort)
  else
    match hashedSecret with
    | b0 :: b1 :: b2 :: _ =>
        if negb (Byte.eqb b0 "$"%byte) then (None, Some InvalidHashPrefixError)
        else if (Byte.to_N majorVersion <? Byte.to_N b1)%N
        then (None, Some HashVersionTooNewError)
        else
          let '(mi, n) := if Byte.eqb b2 "$"%byte then (x00, 3) else (b2, 4) in
          let rest := skipn n hashedSecret in
          match rest with
          | c0 :: c1 :: _ =>
              match Atoi2 c0 c1 with
              | (_, Some err) => (None, Some err)
              | (c, None) =>
                  match checkCost c with
                  | Some err => (None, Some err)
                  | None =>
                      let rest := skipn 3 rest in
                      (Some (mkHashed (skipn encodedSaltSize rest)
                                      (firstn encodedSaltSize rest)
                                      (Z.to_nat c) b1 mi), None)
                  end
              end
          | _ => (None, Some ErrHashTooShort)
          end
    | _ => (None, Some ErrHashTooShort)
    end.

(** [CompareHashAndPassword]: no bound on the length of the password
    here. *)
Definition CompareHashAndPassword (hashedPassword password : bytes)
  : option error :=
  match newFromHash hashedPassword with
  | (_, Some err) => Some err
  | (None, None) => Some ErrHashTooShort (* does not occur *)
  | (Some p, None) =>
      match bcrypt password (cost p) (salt p) with
      | (_, Some err) => Some err
      | (otherHash, None) =>
          let otherP := mkHashed otherHash (salt p) (cost p) (major p) (minor p) in
          if bytes_eqb (Hash p) (Hash otherP) then None
          else Some ErrMismatchedHashAndPassword
      end
  end.

End Bcrypt.
End bcrypt.

(* ================================================================= *)
(** ** Package userbus *)

Module userbus.
Section Userbus.

Context {P : Platform}.

(** Set of error variables for CRUD operations. *)
Definition ErrNotFound : error := errors.New "user not found".
Definition ErrUniqueEmail : error := errors.New "email is not unique".
Definition ErrAuthenticationFailure : error := errors.New "authentication failed".

(** *** The ports *)

(** The [Storer] interface; an implementation acts on the state behind the
    ports. *)
Class Storer (S : Type) : Type := {
  st_NewWithTx : S -> CommitRollbacker -> S * option error;
  st_Create : S -> User -> Env -> option error * Env;
  st_Update : S -> User -> Env -> option error * Env;
  st_Delete : S -> User -> Env -> option error * Env;
  st_Query : S -> QueryFilter -> OrderBy -> Page -> Env ->
             (list User * option error) * Env;
  st_Count : S -> QueryFilter -> Env -> (Z * option error) * Env;
  st_QueryByID : S -> uuid.UUID -> Env -> (User * option error) * Env;
  st_QueryByEmail : S -> mail.Address -> Env -> (User * option error) * Env
}.

(** A call through the interface: the observer sees it, then the
    implementation runs on the state behind the ports. *)
Definition port {A : Type} (op : StorerOp) (impl : Env -> A * Env) : IO A :=
  fun w =>
    let (_, w1) := emit (StorerCall op) w in
    let (r, e) := impl (env w1) in
    (r, set_env e w1).

(** Modelled from the spec: the event-emission port, [*delegate.Delegate]
    with its one method [Call], which reports the failure of a
    subscriber. *)
Record Delegate : Type := mkDelegate {
  dg_Call : delegate.Data -> Env -> option error * Env
}.

Definition Delegate_Call (d : Delegate) (data : delegate.Data)
  : IO (option error) :=
  fun w =>
    let (_, w1) := emit (DelegateCall data) w in
    let (r, e) := dg_Call d data (env w1) in
    (r, set_env e w1).

(** Modelled from the spec: [ActionDeletedData] of event.go, the event
    "user deleted" carrying the identifier of the user. *)
Definition ActionDeletedData (userID : uuid.UUID) : delegate.Data :=
  delegate.mkData DomainName ActionDeleted userID.

(** *** The core business value *)

Section Core.

Context {S : Type} `{Storer S}.

(** Business manages the set of APIs for user access. *)
Record business : Type := mkBusiness {
  log : Logger;
  storer : S;
  delegate : Delegate
}.

(** NewWithTx constructs a new business value that will use the
    specified transaction in any store related calls. *)
Definition NewWithTx (b : business) (tx : CommitRollbacker)
  : option business * option error :=
  match st_NewWithTx (storer b) tx with
  | (_, Some err) => (None, Some err)
  | (storer', None) =>
      let bus := mkBusiness (log b) storer' (delegate b) in
      (Some bus, None)
  end.

(** Create adds a new user to the system. *)
Definition Create (b : business) (actorID : uuid.UUID) (nu : NewUser)
  : IO (User * option error) :=
  with_span "business.userbus.create" (fun w =>
    let '((hash, err), w1) :=
      bcrypt.GenerateFromPassword (list_byte_of_string (nu_Password nu))
                                  bcrypt.DefaultCost w in
    match err with
    | Some err =>
        ((User_zero, Some (fmt.Errorf_w "generatefrompassword: " err)), w1)
    | None =>
        let (now, w2) := time_Now w1 in
        let (id, w3) := uuid_New w2 in
        let usr := {|
          ID := id;
          Name := nu_Name nu;
          Email := nu_Email nu;
          PasswordHash := hash;
          Roles := nu_Roles nu;
          Department := nu_Department nu;
          Enabled := true;
          DateCreated := now;
          DateUpdated := now
        |} in
        let (err, w4) :=
          port (OpCreate usr) (st_Create (storer b) usr) w3 in
        match err with
        | Some err => ((User_zero, Some (fmt.Errorf_w "create: " err)), w4)
        | None => ((usr, None), w4)
        end
    end).

(** Assignments to the fields of the local copy [usr]. *)
Definition set_Name (v : string) (u : User) : User :=
  mkUser (ID u) v (Email u) (Roles u) (PasswordHash u) (Department u)
         (Enabled u) (DateCreated u) (DateUpdated u).
Definition set_Email (v : mail.Address) (u : User) : User :=
  mkUser (ID u) (Name u) v (Roles u) (PasswordHash u) (Department u)
         (Enabled u) (DateCreated u) (DateUpdated u).
Definition set_Roles (v : slice Role) (u : User) : User :=
  mkUser (ID u) (Name u) (Email u) v (PasswordHash u) (Department u)
         (Enabled u) (DateCreated u) (DateUpdated u).
Definition set_PasswordHash (v : bytes) (u : User) : User :=
  mkUser (ID u) (Name u) (Email u) (Roles u) v (Department u)
         (Enabled u) (DateCreated u) (DateUpdated u).
Definition set_Department (v : option string) (u : User) : User :=
  mkUser (ID u) (Name u) (Email u) (Roles u) (PasswordHash u) v
         (Enabled u) (DateCreated u) (DateUpdated u).
Definition set_Enabled (v : bool) (u : User) : User :=
  mkUser (ID u) (Name u) (Email u) (Roles u) (PasswordHash u) (Department u)
         v (DateCreated u) (DateUpdated u).
Definition set_DateUpdated (v : Time) (u : User) : User :=
  mkUser (ID u) (Name u) (Email u) (Roles u) (PasswordHash u) (Department u)
         (Enabled u) (DateCreated u) v.

(** Update modifies information about a user. *)
Definition Update (b : business) (actorID : uuid.UUID) (usr : User)
           (uu : UpdateUser) : IO (User * option error) :=
  with_span "business.userbus.update" (fun w =>
    let usr := match uu_Name uu with
               | Some v => set_Name v usr
               | None => usr
               end in
    let usr := match uu_Email uu with
               | Some v => set_Email v usr
               | None => usr
               end in
    let usr := match uu_Roles uu with
               | Some _ => set_Roles (uu_Roles uu) usr
               | None => usr
               end in
    (* what follows the password step *)
    let rest (usr : User) : IO (User * option error) := fun w1 =>
      let usr := match uu_Department uu with
                 | Some v => set_Department v usr
                 | None => usr
                 end in
      let usr := match uu_Enabled uu with
                 | Some v => set_Enabled v usr
                 | None => usr
                 end in
      let (now, w2) := time_Now w1 in
      let usr := set_DateUpdated now usr in
      let (err, w3) :=
        port (OpUpdate usr) (st_Update (storer b) usr) w2 in
      match err with
      | Some err => ((User_zero, Some (fmt.Errorf_w "update: " err)), w3)
      | None => ((usr, None), w3)
      end in
    match uu_Password uu with
    | Some password =>
        let '((pw, err), w1) :=
          bcrypt.GenerateFromPassword (list_byte_of_string password)
                                      bcrypt.DefaultCost w in
        match err with
        | Some err =>
            ((User_zero,
              Some (fmt.Errorf_w "generatefrompassword: " err)), w1)
        | None => rest (set_PasswordHash pw usr) w1
        end
    | None => rest usr w
    end).

(** Delete removes the specified user. *)
Definition Delete (b : business) (actorID : uuid.UUID) (usr : User)
  : IO (option error) :=
  with_span "business.userbus.delete" (fun w =>
    let (err, w1) := port (OpDelete usr) (st_Delete (storer b) usr) w in
    match err with
    | Some err => (Some (fmt.Errorf_w "delete: " err), w1)
    | None =>
        (* Other domains may need to know when a user is deleted so
           business logic can be applied.  This represents a delegate
           call to other domains. *)
        let (err, w2) :=
          Delegate_Call (delegate b) (ActionDeletedData (ID usr)) w1 in
        match err with
        | Some err =>
            (Some (fmt.Errorf_w
                     ("failed to execute `" ++ ActionDeleted ++ "` action: ")
                     err), w2)
        | None => (None, w2)
        end
    end).

(** Query retrieves a list of existing users. *)
Definition Query (b : business) (filter : QueryFilter) (orderBy : OrderBy)
           (page : Page) : IO (list User * option error) :=
  with_span "business.userbus.query" (fun w =>
    let '((users, err), w1) :=
      port (OpQuery filter orderBy page)
           (st_Query (storer b) filter orderBy page) w in
    match err with
    | Some err => (([], Some (fmt.Errorf_w "query: " err)), w1)
    | None => ((users, None), w1)
    end).

(** Count returns the total number of users. *)
Definition Count (b : business) (filter : QueryFilter)
  : IO (Z * option error) :=
  with_span "business.userbus.count"
    (port (OpCount filter) (st_Count (storer b) filter)).

(** QueryByID finds the user by the specified ID. *)
Definition QueryByID (b : business) (userID : uuid.UUID)
  : IO (User * option error) :=
  with_span "business.userbus.querybyid" (fun w =>
    let '((user, err), w1) :=
      port (OpQueryByID userID) (st_QueryByID (storer b) userID) w in
    match err with
    | Some err =>
        ((User_zero,
          Some (fmt.Errorf_w
                  ("query: userID[" ++ uuid.String userID ++ "]: ") err)),
         w1)
    | None => ((user, None), w1)
    end).

(** QueryByEmail finds the user by a specified user email. *)
Definition QueryByEmail (b : business) (email : mail.Address)
  : IO (User * option error) :=
  with_span "business.userbus.querybyemail" (fun w =>
    let '((user, err), w1) :=
      port (OpQueryByEmail email) (st_QueryByEmail (storer b) email) w in
    match err with
    | Some err =>
        ((User_zero,
          Some (fmt.Errorf_w
                  ("query: email[" ++ mail.format_s email ++ "]: ") err)),
         w1)
    | None => ((user, None), w1)
    end).

(** Authenticate finds a user by their email and verifies their
    password.  On success it returns a Claims User representing this
    user. *)
Definition Authenticate (b : business) (email : mail.Address)
           (password : string) : IO (User * option error) :=
  with_span "business.userbus.authenticate" (fun w =>
    let '((usr, err), w1) := QueryByEmail b email w in
    match err with
    | Some err =>
        ((User_zero,
          Some (fmt.Errorf_w
                  ("query: email[" ++ mail.format_s email ++ "]: ") err)),
         w1)
    | None =>
        match bcrypt.CompareHashAndPassword (PasswordHash usr)
                (list_byte_of_string password) with
        | Some _ =>
            ((User_zero,
              Some (fmt.Errorf_w "comparehashandpassword: "
                                 ErrAuthenticationFailure)), w1)
        | None => ((usr, None), w1)
        end
    end).

End Core.

Arguments business S : clear implicits.

(** *** The Business interface and the plugins *)

(** The method set of the [Business] interface for a receiver of type
    [B]. *)
Record Methods (B : Type) : Type := mkMethods {
  m_NewWithTx : B -> CommitRollbacker -> option B * option error;
  m_Create : B -> uuid.UUID -> NewUser -> IO (User * option error);
  m_Update : B -> uuid.UUID -> User -> UpdateUser -> IO (User * option error);
  m_Delete : B -> uuid.UUID -> User -> IO (option error);
  m_Query : B -> QueryFilter -> OrderBy -> Page -> IO (list User * option error);
  m_Count : B -> QueryFilter -> IO (Z * option error);
  m_QueryByID : B -> uuid.UUID -> IO (User * option error);
  m_QueryByEmail : B -> mail.Address -> IO (User * option error);
  m_Authenticate : B -> mail.Address -> string -> IO (User * option error)
}.

(** A value of the interface type: a dynamic type, its methods and the
    receiver. *)
Record Business : Type := mkIface {
  dyn : Type;
  methods : Methods dyn;
  recv : dyn
}.

(** Plugin is a function that wraps different layers of business logic
    around the core business functionality; [None] is the nil function. *)
Definition Plugin : Type := option (Business -> Business).

(** The method set of [*business]. *)
Definition business_methods {S : Type} `{Storer S} : Methods (business S) :=
  mkMethods NewWithTx Create Update Delete Query Count QueryByID
            QueryByEmail Authenticate.

(** The loop of [NewBusiness]; [n] is [i + 1], so it stops at [n = 0]
    where the Go loop stops at [i < 0]. *)
Fixpoint wrap (plugins : list Plugin) (n : nat) (b : Business) : Business :=
  match n with
  | O => b
  | Datatypes.S i =>
      match nth_error plugins i with
      | Some (Some p) => wrap plugins i (p b)
      | _ => wrap plugins i b
      end
  end.

(** NewBusiness constructs a user business API for use. *)
Definition NewBusiness {S : Type} `{Storer S} (log : Logger)
           (delegate : Delegate) (storer : S) (plugins : list Plugin)
  : Business :=
  let b := mkIface business_methods (mkBusiness log storer delegate) in
  wrap plugins (length plugins) b.

(** *** Calls through the interface *)

Definition Business_NewWithTx (b : Business) (tx : CommitRollbacker)
  : option Business * option error :=
  match m_NewWithTx (methods b) (recv b) tx with
  | (Some r, err) => (Some (mkIface (methods b) r), err)
  | (None, err) => (None, err)
  end.

Definition Business_Create (b : Business) (actorID : uuid.UUID)
           (nu : NewUser) : IO (User * option error) :=
  m_Create (methods b) (recv b) actorID nu.

(** What a plugin of the list does to the value built so far. *)
Definition apply_plugin (p : Plugin) (b : Business) : Business :=
  match p with
  | Some f => f b
  | None => b
  end.

(** *** A plugin that records its way in and its way out

    The plugin of the ordering test: every operation of the wrapped value
    runs between an entry and an exit event that carry the name of the
    plugin. *)

Definition around {A : Type} (name : string) (inner : IO A) : IO A :=
  fun w =>
    let (_, w1) := emit (PluginEnter name) w in
    let (r, w2) := inner w1 in
    let (_, w3) := emit (PluginExit name) w2 in
    (r, w3).

Definition recorder_methods (name : string) {B : Type} (m : Methods B)
  : Methods B :=
  mkMethods
    (m_NewWithTx m)
    (fun b a nu => around name (m_Create m b a nu))
    (fun b a usr uu => around name (m_Update m b a usr uu))
    (fun b a usr => around name (m_Delete m b a usr))
    (fun b f o pg => around name (m_Query m b f o pg))
    (fun b f => around name (m_Count m b f))
    (fun b id => around name (m_QueryByID m b id))
    (fun b e => around name (m_QueryByEmail m b e))
    (fun b e pw => around name (m_Authenticate m b e pw)).

Definition recorder (name : string) : Business -> Business :=
  fun inner => mkIface (recorder_methods name (methods inner)) (recv inner).

(** The plugin list of the ordering test: a name for a recorder, [None]
    for a nil entry. *)
Definition recorders (names : list (option string)) : list Plugin :=
  map (option_map recorder) names.

Fixpoint present (names : list (option string)) : list string :=
  match names with
  | [] => []
  | Some n :: r => n :: present r
  | None :: r => present r
  end.

(** Append a run of events to the trace. *)
Definition emit_all (evs : list Event) (w : World) : World :=
  mkWorld (env w) (trace w ++ evs) (clock w) (uuids w) (entropy w) (reads w).

(** *** Vocabulary of the statements *)

(** The value of an optional field of a request when it is present, the
    old value otherwise. *)
Definition pick {A : Type} (new : option A) (old : A) : A :=
  match new with
  | Some v => v
  | None => old
  end.

(** What [bcrypt.GenerateFromPassword] at the default cost returns for a
    plaintext in a world. *)
Definition hashing (password : string) (w : World) : bytes * option error :=
  fst (bcrypt.GenerateFromPassword (list_byte_of_string password)
                                   bcrypt.DefaultCost w).

(** [part] occurs in [msg]. *)
Definition mentions (msg part : string) : Prop :=
  exists pre post : string, msg = pre ++ part ++ post.

(** The kind of an error: the sentinel at the end of its chain, which is
    what [errors.Is] against a sentinel finds. *)
Definition kind (e : error) : error := errors.cause e.

End Userbus.

Arguments business {P} S.

End userbus.

(* ================================================================= *)
(** ** An in-memory storage port

    A storage port over a list of rows, of the kind a test of the business
    layer substitutes for the database; [fault] makes every call of the port
    fail. *)

Module memory.

Local Open Scope list_scope.

Record DB : Type := mkDB {
  rows : list User;
  fault : option error
}.

(** A stand-in for the cipher, enough to run the code: every byte of the
    key is added to a byte of the salt.  It is not Blowfish. *)
Definition mix (key : bytes) (c : nat) (s : bytes) : bytes * option error :=
  let pad := concat (repeat (s ++ [x00]) 72) in
  (bcrypt.base64Encode
     (firstn 23 (map (fun ab => byte_of_N
                                  ((Byte.to_N (fst ab) + Byte.to_N (snd ab)
                                    + N.of_nat c) mod 256))
                     (combine key pad))),
   None).

#[export] Instance platform : Platform := {|
  Env := DB;
  Logger := unit;
  CommitRollbacker := bool;
  QueryFilter := unit;
  OrderBy := unit;
  Page := unit;
  DomainName := "user";
  ActionDeleted := "deleted";
  blowfish := mix
|}.

Definition same_id (a : uuid.UUID) (u : User) : bool := bytes_eqb a (ID u).
Definition same_email (a : mail.Address) (u : User) : bool :=
  String.eqb (mail.Addr a) (mail.Addr (Email u)).

Definition guarded {A : Type} (zero : A) (f : DB -> A * option error * DB)
  : DB -> A * option error * DB :=
  fun db =>
    match fault db with
    | Some err => ((zero, Some err), db)
    | None => f db
    end.

Definition guarded_err (f : DB -> option error * DB)
  : DB -> option error * DB :=
  fun db =>
    match fault db with
    | Some err => (Some err, db)
    | None => f db
    end.

Definition lookup (p : User -> bool) (db : DB) : User * option error * DB :=
  match find p (rows db) with
  | Some u => ((u, None), db)
  | None => ((User_zero, Some (fmt.Errorf_w "db: " userbus.ErrNotFound)), db)
  end.

(** The handle is [tt]; a transaction handle is usable when [true]. *)
Definition NewWithTx (s : unit) (tx : bool) : unit * option error :=
  if tx then (s, None)
  else (s, Some (errors.New "Transactor(false) not supported")).

Definition Create (_ : unit) (u : User) : DB -> option error * DB :=
  guarded_err (fun db =>
    if existsb (same_email (Email u)) (rows db)
    then (Some userbus.ErrUniqueEmail, db)
    else (None, mkDB (rows db ++ [u]) (fault db))).

Definition Update (_ : unit) (u : User) : DB -> option error * DB :=
  guarded_err (fun db =>
    (None, mkDB (map (fun r => if same_id (ID u) r then u else r) (rows db))
                (fault db))).

Definition Delete (_ : unit) (u : User) : DB -> option error * DB :=
  guarded_err (fun db =>
    (None, mkDB (filter (fun r => negb (same_id (ID u) r)) (rows db))
                (fault db))).

Definition Query (_ : unit) (_ _ _ : unit)
  : DB -> list User * option error * DB :=
  guarded [] (fun db => ((rows db, None), db)).

Definition Count (_ : unit) (_ : unit) : DB -> Z * option error * DB :=
  guarded 0%Z (fun db => ((Z.of_nat (length (rows db)), None), db)).

Definition QueryByID (_ : unit) (id : uuid.UUID)
  : DB -> User * option error * DB :=
  guarded User_zero (lookup (same_id id)).

Definition QueryByEmail (_ : unit) (a : mail.Address)
  : DB -> User * option error * DB :=
  guarded User_zero (lookup (same_email a)).

#[export] Instance store : userbus.Storer (P := platform) unit :=
  userbus.Build_Storer (P := platform) NewWithTx Create Update Delete
                       Query Count QueryByID QueryByEmail.

Definition quiet : userbus.Delegate :=
  userbus.mkDelegate (fun _ db => (None, db)).

Definition failing (err : error) : userbus.Delegate :=
  userbus.mkDelegate (fun _ db => (Some err, db)).

Definition bus : userbus.business unit := userbus.mkBusiness tt tt quiet.

(** A world with no rows, whose clock, identifiers and random bytes are
    read from short tables, by the number of values drawn so far. *)
Definition world0 : World :=
  mkWorld (mkDB [] None) []
          (fun n => nth n [1000; 1001; 1002; 1003; 1004; 1005; 1006; 1007]%Z
                        2000%Z)
          (fun n => repeat (nth n [x10; x11; x12; x13; x14; x15; x16; x17]
                                xff) 16)
          (fun n => Some (repeat (nth n [x01; x08; x0f; x16; x1d; x24; x2b; x32]
                                      x39) 16))
          0.

Definition broken (err : error) (w : World) : World :=
  set_env (mkDB (rows (env w)) (Some err)) w.

Definition ada : NewUser :=
  mkNewUser "Ada" (mail.mkAddress "" "ada@x.io") (Some ["USER"%string]) None "s3cret!".

Definition actor : uuid.UUID := uuid.Nil.

(** Ada is created in the empty world. *)
Definition created : User * option error * World :=
  userbus.Create bus actor ada world0.
Definition ada_user : User := fst (fst created).
Definition world1 : World := snd created.

Definition bob : mail.Address := mail.mkAddress "" "bob@x.io".

(** A request that disables the account and sets a new password. *)
Definition disable : UpdateUser :=
  mkUpdateUser None None None None (Some "n3w-s3cret"%string) (Some false).
Definition updated : User * option error * World :=
  userbus.Update bus actor ada_user disable world1.

Definition p73 : string := string_of_list_byte (repeat "a"%byte 73).


(** A request that renames the user and carries a password that bcrypt
    refuses. *)
Definition rename : UpdateUser :=
  mkUpdateUser (Some "Eve"%string) None None None (Some p73) None.

Definition refused : error := errors.New "connection refused".
Definition unheard : error := errors.New "subscriber failed".

Definition deaf_bus : userbus.business unit :=
  userbus.mkBusiness tt tt (failing unheard).

End memory.

(* ================================================================= *)
(** ** Vocabulary for the observations on a run *)

Section Observations.

Context {P : Platform}.

(** The calls that reached the storage port, in order. *)
Fixpoint storer_calls (tr : list Event) : list StorerOp :=
  match tr with
  | [] => []
  | StorerCall op :: r => op :: storer_calls r
  | _ :: r => storer_calls r
  end.

(** The events handed to the delegate, in order. *)
Fixpoint delegate_calls (tr : list Event) : list delegate.Data :=
  match tr with
  | [] => []
  | DelegateCall d :: r => d :: delegate_calls r
  | _ :: r => delegate_calls r
  end.

(** The events of a run: what the trace of [w'] holds after that of [w]. *)
Definition since (w w' : World) : list Event :=
  skipn (length (trace w)) (trace w').

(** A run of events that opens with the span [name] and closes with it. *)
Definition bracketed (name : string) (evs : list Event) : Prop :=
  exists mid : list Event, evs = SpanStart name :: mid ++ [SpanEnd name].

(** The record that [Create] builds from a request, a hash and the world in
    which it was called: the hash function has drawn one value, then the
    clock is read, then the identifier is made. *)
Definition created_record (nu : NewUser) (h : bytes) (w : World) : User :=
  mkUser (fit 16 (uuids w (reads w + 2))) (nu_Name nu) (nu_Email nu)
         (nu_Roles nu) h (nu_Department nu) true
         (clock w (reads w + 1)) (clock w (reads w + 1)).

(** The record that [Update] builds from a snapshot, a request, the hash of
    the new password when there is one, and the time read. *)
Definition merged (usr : User) (uu : UpdateUser) (pw : option bytes)
           (now : Time) : User :=
  mkUser (ID usr)
         (userbus.pick (uu_Name uu) (Name usr))
         (userbus.pick (uu_Email uu) (Email usr))
         (match uu_Roles uu with
          | Some _ => uu_Roles uu
          | None => Roles usr
          end)
         (userbus.pick pw (PasswordHash usr))
         (userbus.pick (uu_Department uu) (Department usr))
         (userbus.pick (uu_Enabled uu) (Enabled usr))
         (DateCreated usr)
         now.

(** The world after [n] more values were drawn. *)
Definition drawn (n : nat) (w : World) : World :=
  mkWorld (env w) (trace w) (clock w) (uuids w) (entropy w) (n + reads w).

End Observations.

Module fixtures.

Import memory.

(** Ada after the request [disable]. *)
Definition ada_disabled : User := fst (fst updated).
Definition world2 : World := snd updated.

(** A request without a password. *)
Definition retire : UpdateUser :=
  mkUpdateUser None None (Some []) (Some (Some "Archive"%string)) None (Some false).

Definition long : NewUser :=
  mkNewUser "Eve" (mail.mkAddress "" "eve@x.io") None None p73.

(** Ada after the request [retire], and after the same request once more. *)
Definition retired : User * option error * World :=
  userbus.Update bus actor ada_user retire world1.
Definition retired_again : User * option error * World :=
  userbus.Update bus actor (fst (fst retired)) retire (snd retired).

(** Ada is created a second time. *)
Definition ada_hash : bytes := fst (userbus.hashing (nu_Password ada) world1).

End fixtures.

(* ================================================================= *)
(** ** The pieces of a generated hash *)

Section Salted.
Context {P : Platform}.




End Salted.

(* ================================================================= *)
(** ** The in-memory storage port over a cipher that hides its key *)

Module sealed.

Local Open Scope list_scope.

(** A byte of the alphabet other than [t]. *)
Definition other (t : byte) : byte :=
  if Byte.eqb t "."%byte then "/"%byte else "."%byte.

(** A stand-in for the cipher whose digest begins with a byte other than
    byte 29 of the key, and goes on as [memory.mix] does.  It is not
    Blowfish. *)
Definition cipher (key : bytes) (c : nat) (s : bytes) : bytes * option error :=
  (other (nth 29 key x00) :: firstn 30 (fst (memory.mix key c s)), None).

#[export] Instance platform : Platform := {|
  Env := memory.DB;
  Logger := unit;
  CommitRollbacker := bool;
  QueryFilter := unit;
  OrderBy := unit;
  Page := unit;
  DomainName := "user";
  ActionDeleted := "deleted";
  blowfish := cipher
|}.

#[export] Instance store : userbus.Storer (P := platform) unit :=
  userbus.Build_Storer (P := platform) memory.NewWithTx memory.Create
                       memory.Update memory.Delete memory.Query memory.Count
                       memory.QueryByID memory.QueryByEmail.

Definition bus : userbus.business (P := platform) unit :=
  userbus.mkBusiness (P := platform) tt tt
    (userbus.mkDelegate (P := platform) (fun _ db => (None, db))).

Definition world0 : World (P := platform) :=
  mkWorld (P := platform) (memory.mkDB [] None) []
          (fun n => nth n [1000; 1001; 1002; 1003]%Z 2000%Z)
          (fun n => repeat (nth n [x10; x11; x12; x13] xff) 16)
          (fun n => Some (repeat (nth n [x01; x08; x0f; x16] x39) 16))
          0.

(** Ada is created in the empty world. *)
Definition created : User * option error * World (P := platform) :=
  userbus.Create bus memory.actor memory.ada world0.
Definition ada_user : User := fst (fst created).
Definition world1 : World (P := platform) := snd created.

End sealed.

(* ================================================================= *)
(** * Properties *)

Local Open Scope list_scope.

Section ErrorFacts.

Lemma errors_eqb_refl (e : error) : errors.eqb e e = true.
Proof.
  induction e as [s | msg e IH]; simpl.
  - apply String.eqb_refl.
  - now rewrite String.eqb_refl, IH.
Qed.

Lemma errors_eqb_eq (a b : error) : errors.eqb a b = true -> a = b.
Proof.
  revert b; induction a as [s | m a IH]; intros [t | n b]; simpl;
    try discriminate.
  - intros H; apply String.eqb_eq in H; now subst.
  - intros H; apply andb_true_iff in H as [H1 H2].
    apply String.eqb_eq in H1; apply IH in H2; now subst.
Qed.

(** Against a sentinel, [errors.Is] looks at the end of the chain. *)
Lemma Is_sentinel (e : error) (text : string) :
  errors.Is e (errors.New text) = errors.eqb (errors.cause e) (errors.New text).
Proof.
  induction e as [s | msg e IH]; simpl.
  - now rewrite orb_false_r.
  - exact IH.
Qed.

Lemma cause_Errorf_w (prefix : string) (e : error) :
  errors.cause (fmt.Errorf_w prefix e) = errors.cause e.
Proof. reflexivity. Qed.

(** No error is itself with a prefix put before it. *)
Lemma not_wrapped_self (prefix : string) (e : error) :
  e <> fmt.Errorf_w prefix e.
Proof.
  intros H. apply (f_equal errors.depth) in H. simpl in H. lia.
Qed.

End ErrorFacts.

Section PluginChain.

Context {P : Platform}.

Lemma wrap_prefix (pre post : list userbus.Plugin) (b : userbus.Business) :
  userbus.wrap (pre ++ post) (length pre) b
  = fold_right userbus.apply_plugin b pre.
Proof.
  revert post b.
  induction pre as [| p pre IH] using rev_ind; intros post b.
  - reflexivity.
  - rewrite length_app, Nat.add_comm. simpl.
    rewrite <- app_assoc. simpl.
    rewrite nth_error_app2 by lia. rewrite Nat.sub_diag. simpl.
    rewrite fold_right_app. simpl.
    destruct p as [f |]; simpl; apply IH.
Qed.

Lemma wrap_all (plugins : list userbus.Plugin) (b : userbus.Business) :
  userbus.wrap plugins (length plugins) b
  = fold_right userbus.apply_plugin b plugins.
Proof.
  rewrite <- (app_nil_r plugins) at 1. apply wrap_prefix.
Qed.

Lemma recorders_Create (names : list (option string)) (b : userbus.Business)
      (actorID : uuid.UUID) (nu : NewUser) (w : World) :
  userbus.Business_Create
    (fold_right userbus.apply_plugin b (userbus.recorders names)) actorID nu w
  = let (r, w1) :=
      userbus.Business_Create b actorID nu
        (userbus.emit_all (map PluginEnter (userbus.present names)) w) in
    (r, userbus.emit_all (map PluginExit (rev (userbus.present names))) w1).
Proof.
  revert w. induction names as [| [n |] names IH]; intros w.
  - simpl. unfold userbus.emit_all. simpl. rewrite app_nil_r.
    destruct w; simpl.
    destruct (userbus.Business_Create b actorID nu _) as [r w1].
    destruct w1; simpl. now rewrite app_nil_r.
  - simpl. unfold userbus.Business_Create at 1. simpl.
    unfold userbus.around. simpl.
    change (userbus.m_Create _ _ actorID nu) with
      (userbus.Business_Create
         (fold_right userbus.apply_plugin b (userbus.recorders names))
         actorID nu).
    rewrite IH.
    unfold userbus.emit_all; simpl.
    rewrite <- app_assoc. simpl.
    destruct (userbus.Business_Create b actorID nu _) as [r w1]. simpl.
    rewrite map_app. simpl. now rewrite <- app_assoc.
  - simpl. apply IH.
Qed.

(** C5.  For a plugin list [P1; ...; Pn] the value built by
    [NewBusiness] is P1 (P2 (... (Pn core))): the plugin listed first is
    the outermost wrapper, a nil entry of the list changes nothing, and a
    call of [Create] through recording plugins enters them in the order of
    the list, runs the core, and leaves them in the reverse order. *)
Theorem NewBusiness_plugin_order {S : Type} {St : userbus.Storer S}
        (log : Logger) (dg : userbus.Delegate) (st : S) :
  let core :=
    userbus.mkIface userbus.business_methods (userbus.mkBusiness log st dg) in
  (forall plugins,
      userbus.NewBusiness log dg st plugins
      = fold_right userbus.apply_plugin core plugins)
  /\ (forall p1 p2 p3,
        userbus.NewBusiness log dg st [Some p1; Some p2; Some p3]
        = p1 (p2 (p3 core)))
  /\ (forall pre post,
        userbus.NewBusiness log dg st (pre ++ None :: post)
        = userbus.NewBusiness log dg st (pre ++ post))
  /\ (forall names actorID nu w,
        userbus.Business_Create
          (userbus.NewBusiness log dg st (userbus.recorders names))
          actorID nu w
        = let (r, w1) :=
            userbus.Create (userbus.mkBusiness log st dg) actorID nu
              (userbus.emit_all (map PluginEnter (userbus.present names)) w) in
          (r, userbus.emit_all
                (map PluginExit (rev (userbus.present names))) w1)).
Proof.
  intros core. unfold userbus.NewBusiness. fold core.
  split; [| split; [| split]].
  - intros plugins. apply wrap_all.
  - intros p1 p2 p3. reflexivity.
  - intros pre post. rewrite !wrap_all, !fold_right_app. reflexivity.
  - intros names actorID nu w. rewrite wrap_all.
    apply recorders_Create.
Qed.

End PluginChain.

Section BytesFacts.

Lemma fit_length (n : nat) (l : bytes) : length (fit n l) = n.
Proof.
  unfold fit. rewrite length_firstn, length_app, repeat_length. lia.
Qed.

Lemma fit_exact (n : nat) (l : bytes) : length l = n -> fit n l = l.
Proof.
  intros <-. unfold fit. rewrite firstn_app, Nat.sub_diag, firstn_all.
  simpl. apply app_nil_r.
Qed.

Lemma fit_fit (n : nat) (l : bytes) : fit n (fit n l) = fit n l.
Proof. apply fit_exact, fit_length. Qed.

Lemma firstn_exact_app (a b : bytes) (n : nat) :
  length a = n -> firstn n (a ++ b) = a.
Proof.
  intros <-. rewrite firstn_app, Nat.sub_diag, firstn_all. simpl.
  apply app_nil_r.
Qed.

Lemma skipn_exact_app (a b : bytes) (n : nat) :
  length a = n -> skipn n (a ++ b) = b.
Proof.
  intros <-. rewrite skipn_app, Nat.sub_diag, skipn_all. reflexivity.
Qed.

Lemma bytes_eqb_refl (a : bytes) : bytes_eqb a a = true.
Proof. unfold bytes_eqb. destruct (list_eq_dec _ a a); congruence. Qed.

End BytesFacts.

Section BcryptRoundTrip.

Context {P : Platform}.

Lemma base64Encode_16 (l : bytes) :
  length l = 16 -> length (bcrypt.base64Encode l) = 22.
Proof.
  intros H.
  do 17 (destruct l as [| ? l]; try discriminate).
  reflexivity.
Qed.

Lemma Hash_default (d s : bytes) :
  bcrypt.Hash (bcrypt.mkHashed d s 10 "2"%byte "a"%byte)
  = list_byte_of_string "$2a$10$" ++ fit 22 s ++ fit 31 d.
Proof. reflexivity. Qed.

Lemma newFromHash_default (s d : bytes) :
  length s = 22 -> length d = 31 ->
  bcrypt.newFromHash (list_byte_of_string "$2a$10$" ++ s ++ d)
  = (Some (bcrypt.mkHashed d s 10 "2"%byte "a"%byte), None).
Proof.
  intros Hs Hd. unfold bcrypt.newFromHash.
  replace (length (list_byte_of_string "$2a$10$" ++ s ++ d)) with 60
    by (rewrite !length_app, Hs, Hd; reflexivity).
  change (60 <? bcrypt.minHashSize)%nat with false. cbv iota.
  change (list_byte_of_string "$2a$10$" ++ s ++ d)
    with ("$"%byte :: "2"%byte :: "a"%byte :: "$"%byte
            :: "1"%byte :: "0"%byte :: "$"%byte :: (s ++ d)).
  cbn -[firstn skipn]. cbn [skipn].
  unfold bcrypt.encodedSaltSize.
  rewrite firstn_exact_app by exact Hs. now rewrite skipn_exact_app by exact Hs.
Qed.

(** What [GenerateFromPassword] returns is accepted by
    [CompareHashAndPassword] for the same password. *)
Lemma Compare_generated (pw : bytes) (w : World) (h : bytes) (w1 : World) :
  bcrypt.GenerateFromPassword pw bcrypt.DefaultCost w = ((h, None), w1) ->
  bcrypt.CompareHashAndPassword h pw = None
  /\ length h = 60
  /\ firstn 7 h = list_byte_of_string "$2a$10$".
Proof.
  unfold bcrypt.GenerateFromPassword, bcrypt.newFromPassword, rand_Read,
    bcrypt.bcrypt.
  destruct (72 <? length pw)%nat; [discriminate |].
  change (bcrypt.DefaultCost <? bcrypt.MinCost)%nat with false. cbv iota.
  change (bcrypt.checkCost (Z.of_nat bcrypt.DefaultCost)) with (@None error).
  cbv iota.
  destruct (entropy w (reads w)) as [bs |]; [| discriminate].
  cbv iota beta zeta.
  set (s := bcrypt.base64Encode (fit bcrypt.maxSaltSize bs)).
  assert (Hs : length s = 22)
    by (apply base64Encode_16, fit_length).
  destruct (blowfish (bcrypt.key_material pw) bcrypt.DefaultCost s)
    as [d [e |]] eqn:B; [discriminate |].
  intros H; inversion H; subst h w1; clear H.
  change bcrypt.majorVersion with "2"%byte.
  change bcrypt.minorVersion with "a"%byte.
  change bcrypt.DefaultCost with 10 in *.
  rewrite Hash_default, (@fit_exact 22 s) by exact Hs.
  split; [| split].
  - unfold bcrypt.CompareHashAndPassword.
    rewrite newFromHash_default by (exact Hs || apply fit_length).
    cbn [bcrypt.cost bcrypt.salt bcrypt.major bcrypt.minor].
    unfold bcrypt.bcrypt. rewrite B.
    rewrite !Hash_default, fit_fit. now rewrite bytes_eqb_refl.
  - rewrite !length_app, Hs, fit_length. reflexivity.
  - reflexivity.
Qed.


(** A password of 72 bytes or more is read through its first 72 bytes. *)
Lemma key_material_long (pw : bytes) :
  72 <= length pw -> bcrypt.key_material pw = firstn 72 pw.
Proof.
  intros L. unfold bcrypt.key_material.
  change (repeat (pw ++ [x00]) 72)
    with ((pw ++ [x00]) :: repeat (pw ++ [x00]) 71).
  cbn [concat]. rewrite <- !app_assoc.
  rewrite firstn_app.
  replace (72 - length pw) with 0 by lia.
  cbn [firstn]. apply app_nil_r.
Qed.

Lemma key_material_suffix (pw suffix : bytes) :
  length pw = 72 ->
  bcrypt.key_material (pw ++ suffix) = bcrypt.key_material pw.
Proof.
  intros L.
  rewrite !key_material_long by (rewrite ?length_app; lia).
  rewrite firstn_app, L, Nat.sub_diag. cbn [firstn].
  now rewrite app_nil_r.
Qed.

End BcryptRoundTrip.

Section BcryptFacts.
Context {P : Platform}.

Lemma GenerateFromPassword_unfold (pw : bytes) (w : World) :
  bcrypt.GenerateFromPassword pw bcrypt.DefaultCost w =
    if (72 <? length pw)%nat then (([], Some bcrypt.ErrPasswordTooLong), w)
    else
      match entropy w (reads w) with
      | None => (([], Some (errors.New "unexpected EOF")), tick w)
      | Some bs =>
          let s := bcrypt.base64Encode (fit 16 bs) in
          match blowfish (bcrypt.key_material pw) 10 s with
          | (_, Some err) => (([], Some err), tick w)
          | (h, None) =>
              ((bcrypt.Hash (bcrypt.mkHashed h s 10 "2"%byte "a"%byte), None),
               tick w)
          end
      end.
Proof.
  unfold bcrypt.GenerateFromPassword, bcrypt.newFromPassword, rand_Read,
    bcrypt.bcrypt.
  destruct (72 <? length pw)%nat; [reflexivity |].
  cbn.
  destruct (entropy w (reads w)) as [bs |]; [| reflexivity].
  destruct (blowfish _ _ _) as [h [err |]]; reflexivity.
Qed.

Lemma GenerateFromPassword_emit (pw : bytes) (ev : Event) (w : World) :
  bcrypt.GenerateFromPassword pw bcrypt.DefaultCost (snd (emit ev w)) =
    let (r, w1) := bcrypt.GenerateFromPassword pw bcrypt.DefaultCost w in
    (r, snd (emit ev w1)).
Proof.
  rewrite !GenerateFromPassword_unfold.
  cbn [emit snd entropy reads].
  destruct (72 <? length pw)%nat; [reflexivity |].
  destruct (entropy w (reads w)) as [bs |]; [| reflexivity].
  cbv zeta. destruct (blowfish _ _ _) as [h [err |]]; reflexivity.
Qed.

Lemma GenerateFromPassword_world (pw : bytes) (w : World) r w1 :
  bcrypt.GenerateFromPassword pw bcrypt.DefaultCost w = (r, w1) ->
  (w1 = w /\ snd r <> None) \/ w1 = tick w.
Proof.
  rewrite GenerateFromPassword_unfold.
  destruct (72 <? length pw)%nat.
  - intros H; inversion H; subst. left; split; [reflexivity | discriminate].
  - destruct (entropy w (reads w)) as [bs |].
    + cbv zeta. destruct (blowfish _ _ _) as [h [err |]];
        intros H; inversion H; now right.
    + intros H; inversion H; now right.
Qed.

End BcryptFacts.

Section BcryptLayout.

Context {P : Platform}.






End BcryptLayout.

Section CoreFacts.

Context {P : Platform} {S : Type} {St : userbus.Storer S}.

Lemma append_assoc (a b c : string) :
  ((a ++ b) ++ c = a ++ b ++ c)%string.
Proof. induction a as [| x a IH]; simpl; [reflexivity | now rewrite IH]. Qed.

(** C8.  For every transaction handle, [NewWithTx] asks the storage port
    to rebind itself: it reports exactly the error of the rebinding, gives
    no instance exactly when the rebinding fails, and otherwise gives a new
    value whose storage port is the rebound one and whose logger and
    delegate are those of the original, which is read and never written. *)
Theorem NewWithTx_rebinds (b : userbus.business S) (tx : CommitRollbacker) :
  let r := userbus.st_NewWithTx (userbus.storer b) tx in
  snd (userbus.NewWithTx b tx) = snd r
  /\ (fst (userbus.NewWithTx b tx) = None <-> snd r <> None)
  /\ (forall b', fst (userbus.NewWithTx b tx) = Some b' ->
      userbus.storer b' = fst r
      /\ userbus.log b' = userbus.log b
      /\ userbus.delegate b' = userbus.delegate b).
Proof.
  unfold userbus.NewWithTx.
  destruct (userbus.st_NewWithTx (userbus.storer b) tx) as [s' [err |]];
    cbn.
  - repeat split; try discriminate; congruence.
  - split; [reflexivity |]. split; [split; congruence |].
    intros b' Hb. inversion Hb; subst. repeat split.
Qed.

(** C9.  When the storage port reports a failure for an identifier
    (for an email), [QueryByID] ([QueryByEmail]) fails with an error that
    wraps the error of the storage port and whose message carries the
    identifier (the email). *)
Theorem QueryBy_failure_names_key (b : userbus.business S) (w : World) :
  (forall userID usr err e1,
      userbus.st_QueryByID (userbus.storer b) userID (env w)
      = ((usr, Some err), e1) ->
      exists e,
        fst (userbus.QueryByID b userID w) = (User_zero, Some e)
        /\ errors.Unwrap e = Some err
        /\ errors.Error e
           = ("query: userID[" ++ uuid.String userID ++ "]: "
              ++ errors.Error err)%string
        /\ userbus.mentions (errors.Error e) (uuid.String userID))
  /\ (forall email usr err e1,
      userbus.st_QueryByEmail (userbus.storer b) email (env w)
      = ((usr, Some err), e1) ->
      exists e,
        fst (userbus.QueryByEmail b email w) = (User_zero, Some e)
        /\ errors.Unwrap e = Some err
        /\ errors.Error e
           = ("query: email[" ++ mail.format_s email ++ "]: "
              ++ errors.Error err)%string
        /\ userbus.mentions (errors.Error e) (mail.Addr email)).
Proof.
  split.
  - intros userID usr err e1 H.
    unfold userbus.QueryByID, with_span, userbus.port.
    cbn [emit env fst snd]. rewrite H. cbn [fst snd].
    eexists; split; [reflexivity |].
    cbn [errors.Unwrap errors.Error fmt.Errorf_w].
    rewrite !append_assoc.
    repeat split.
    exists "query: userID[", ("]: " ++ errors.Error err)%string. reflexivity.
  - intros email usr err e1 H.
    unfold userbus.QueryByEmail, with_span, userbus.port.
    cbn [emit env fst snd]. rewrite H. cbn [fst snd].
    eexists; split; [reflexivity |].
    cbn [errors.Unwrap errors.Error fmt.Errorf_w].
    rewrite !append_assoc.
    repeat split.
    exists ("query: email[{" ++ mail.Name email ++ " ")%string,
           ("}]: " ++ errors.Error err)%string.
    unfold mail.format_s. rewrite !append_assoc. reflexivity.
Qed.


(** C4.  [Delete] calls the storage port first.  When that fails it
    returns the failure without calling the delegate.  Otherwise it calls
    the delegate with the event that carries the identifier of the user;
    when the delegate fails [Delete] returns an error, and the state
    behind the ports is the one the delegate left, reached from the state
    after the storage delete: no other storage call follows, nothing is
    rolled back. *)
Theorem Delete_storage_then_event (b : userbus.business S)
        (actorID : uuid.UUID) (usr : User) (w : World) :
  (forall err e1,
      userbus.st_Delete (userbus.storer b) usr (env w) = (Some err, e1) ->
      userbus.Delete b actorID usr w
      = (Some (fmt.Errorf_w "delete: " err),
         userbus.emit_all [SpanStart "business.userbus.delete";
                           StorerCall (OpDelete usr);
                           SpanEnd "business.userbus.delete"]
                          (set_env e1 w)))
  /\ (forall e1 r2 e2,
      userbus.st_Delete (userbus.storer b) usr (env w) = (None, e1) ->
      userbus.dg_Call (userbus.delegate b)
                      (userbus.ActionDeletedData (ID usr)) e1 = (r2, e2) ->
      userbus.Delete b actorID usr w
      = (match r2 with
         | Some err =>
             Some (fmt.Errorf_w
                     ("failed to execute `" ++ ActionDeleted ++ "` action: ")%string
                     err)
         | None => None
         end,
         userbus.emit_all [SpanStart "business.userbus.delete";
                           StorerCall (OpDelete usr);
                           DelegateCall (userbus.ActionDeletedData (ID usr));
                           SpanEnd "business.userbus.delete"]
                          (set_env e2 w))
      /\ delegate.RawParams (userbus.ActionDeletedData (ID usr)) = ID usr).
Proof.
  split.
  - intros err e1 H.
    unfold userbus.Delete, with_span, userbus.port.
    cbn [emit env fst snd]. rewrite H.
    unfold userbus.emit_all, set_env; cbn.
    now rewrite <- !app_assoc.
  - intros e1 r2 e2 H1 H2. split; [| reflexivity].
    unfold userbus.Delete, with_span, userbus.port, userbus.Delegate_Call.
    cbn [emit env fst snd]. rewrite H1.
    cbn [set_env env emit]. rewrite H2.
    unfold userbus.emit_all, set_env.
    destruct r2; cbn; now rewrite <- !app_assoc.
Qed.

(** C10.  When the request carries a password and hashing it fails,
    [Update] returns the zero [User] and an error; the state behind the
    ports is unchanged and no call reached the storage port, so nothing of
    the merge is stored, whatever other fields the request carries. *)
Theorem Update_hash_failure_stores_nothing (b : userbus.business S)
        (actorID : uuid.UUID) (usr : User) (uu : UpdateUser) (w : World)
        (password : string) (err : error) :
  uu_Password uu = Some password ->
  snd (userbus.hashing password w) = Some err ->
  exists w',
    userbus.Update b actorID usr uu w
    = ((User_zero, Some (fmt.Errorf_w "generatefrompassword: " err)), w')
    /\ env w' = env w
    /\ trace w' = trace w ++ [SpanStart "business.userbus.update";
                              SpanEnd "business.userbus.update"]
    /\ (forall op, ~ In (StorerCall op) (skipn (length (trace w)) (trace w'))).
Proof.
  intros Hpw Hh. unfold userbus.hashing in Hh.
  unfold userbus.Update, with_span. rewrite Hpw.
  change (emit (SpanStart "business.userbus.update") w)
    with (tt, snd (emit (SpanStart "business.userbus.update") w)).
  cbv iota beta.
  rewrite GenerateFromPassword_emit.
  destruct (bcrypt.GenerateFromPassword _ _ w) as [[pw e] w1] eqn:G.
  cbn [fst snd] in Hh. subst e.
  apply GenerateFromPassword_world in G.
  eexists; split; [reflexivity |].
  assert (Ht : trace w1 = trace w /\ env w1 = env w)
    by (destruct G as [[-> _] | ->]; now split).
  destruct Ht as [Ht He].
  cbn. rewrite Ht, He, <- app_assoc. cbn.
  repeat split.
  intros op. rewrite skipn_app, skipn_all, Nat.sub_diag. cbn.
  intros [H | [H | []]]; discriminate.
Qed.


Lemma GenerateFromPassword_ok (pw : bytes) (w : World) h w1 :
  bcrypt.GenerateFromPassword pw bcrypt.DefaultCost w = ((h, None), w1) ->
  w1 = tick w.
Proof.
  intros G. apply GenerateFromPassword_world in G.
  destruct G as [[_ G] | G]; [now elim G | exact G].
Qed.

(** C2.  The record returned by a successful [Update] has every field
    that is present in the request taken from the request, a present
    password being hashed first; every absent field, [ID] and
    [DateCreated] are those of the snapshot; [DateUpdated] is the time read
    from the clock, whatever the request holds; and this record is the one
    handed to the storage port. *)
Theorem Update_overwrites_present_fields (b : userbus.business S)
        (actorID : uuid.UUID) (usr : User) (uu : UpdateUser) (w : World)
        (u' : User) (w' : World) :
  userbus.Update b actorID usr uu w = ((u', None), w') ->
  Name u' = userbus.pick (uu_Name uu) (Name usr)
  /\ Email u' = userbus.pick (uu_Email uu) (Email usr)
  /\ Roles u' = match uu_Roles uu with
                | Some _ => uu_Roles uu
                | None => Roles usr
                end
  /\ Department u' = userbus.pick (uu_Department uu) (Department usr)
  /\ Enabled u' = userbus.pick (uu_Enabled uu) (Enabled usr)
  /\ PasswordHash u' = match uu_Password uu with
                       | Some p => fst (userbus.hashing p w)
                       | None => PasswordHash usr
                       end
  /\ (forall p, uu_Password uu = Some p -> snd (userbus.hashing p w) = None)
  /\ ID u' = ID usr
  /\ DateCreated u' = DateCreated usr
  /\ DateUpdated u' = clock w (reads w + match uu_Password uu with
                                         | Some _ => 1
                                         | None => 0
                                         end)
  /\ userbus.st_Update (userbus.storer b) u' (env w) = (None, env w')
  /\ trace w' = trace w ++ [SpanStart "business.userbus.update";
                            StorerCall (OpUpdate u');
                            SpanEnd "business.userbus.update"].
Proof.
  unfold userbus.Update, with_span, userbus.hashing.
  change (emit (SpanStart "business.userbus.update") w)
    with (tt, snd (emit (SpanStart "business.userbus.update") w)).
  cbv iota beta zeta.
  destruct uu as [n em r d [p |] en]; cbn [uu_Password].
  - rewrite GenerateFromPassword_emit.
    destruct (bcrypt.GenerateFromPassword _ _ w) as [[pw [e |]] w1] eqn:G;
      [cbn; discriminate |].
    pose proof G as E; apply GenerateFromPassword_ok in E; subst w1.
    unfold userbus.port.
    destruct n, em, r, d, en; cbn -[bcrypt.GenerateFromPassword];
      (destruct (userbus.st_Update _ _ _) as [[e |] e3] eqn:U;
       cbn; intros H; inversion H; subst; clear H);
      cbn -[bcrypt.GenerateFromPassword];
      rewrite <- !app_assoc, Nat.add_1_r;
      repeat split; try exact U; intros p0 Hp; inversion Hp; subst p0;
      now rewrite G.
  - unfold userbus.port.
    destruct n, em, r, d, en; cbn;
      (destruct (userbus.st_Update _ _ _) as [[e |] e3] eqn:U;
       cbn; intros H; inversion H; subst; clear H);
      cbn; rewrite <- !app_assoc, Nat.add_0_r;
      repeat split; try exact U; discriminate.
Qed.

Lemma Create_hashing (b : userbus.business S) (actorID : uuid.UUID)
      (nu : NewUser) (w : World) (u : User) (w' : World) :
  userbus.Create b actorID nu w = ((u, None), w') ->
  userbus.hashing (nu_Password nu) w = (PasswordHash u, None).
Proof.
  unfold userbus.Create, with_span, userbus.hashing.
  change (emit (SpanStart "business.userbus.create") w)
    with (tt, snd (emit (SpanStart "business.userbus.create") w)).
  cbv iota beta zeta.
  rewrite GenerateFromPassword_emit.
  destruct (bcrypt.GenerateFromPassword _ _ w) as [[pw [e |]] w1] eqn:G;
    [cbn; discriminate |].
  unfold userbus.port. cbn -[bcrypt.GenerateFromPassword].
  destruct (userbus.st_Create _ _ _) as [[e |] e3];
    cbn; intros H; inversion H; subst; reflexivity.
Qed.

(** C3.  The record returned by a successful [Create] has the bcrypt
    hash of the plaintext at the default cost (10) as [PasswordHash], the
    next identifier of the generator as [ID], one reading of the clock as
    both [DateCreated] and [DateUpdated], [Enabled] set, and [Name],
    [Email], [Roles] and [Department] copied from the request; this record
    is the one handed to the storage port. *)
Theorem Create_builds_the_record (b : userbus.business S)
        (actorID : uuid.UUID) (nu : NewUser) (w : World)
        (u : User) (w' : World) :
  userbus.Create b actorID nu w = ((u, None), w') ->
  userbus.hashing (nu_Password nu) w = (PasswordHash u, None)
  /\ firstn 7 (PasswordHash u) = list_byte_of_string "$2a$10$"
  /\ ID u = fit 16 (uuids w (reads w + 2))
  /\ DateCreated u = clock w (reads w + 1)
  /\ DateUpdated u = clock w (reads w + 1)
  /\ Enabled u = true
  /\ Name u = nu_Name nu
  /\ Email u = nu_Email nu
  /\ Roles u = nu_Roles nu
  /\ Department u = nu_Department nu
  /\ userbus.st_Create (userbus.storer b) u (env w) = (None, env w')
  /\ trace w' = trace w ++ [SpanStart "business.userbus.create";
                            StorerCall (OpCreate u);
                            SpanEnd "business.userbus.create"].
Proof.
  unfold userbus.Create, with_span, userbus.hashing.
  change (emit (SpanStart "business.userbus.create") w)
    with (tt, snd (emit (SpanStart "business.userbus.create") w)).
  cbv iota beta zeta.
  rewrite GenerateFromPassword_emit.
  destruct (bcrypt.GenerateFromPassword _ _ w) as [[pw [e |]] w1] eqn:G;
    [cbn; discriminate |].
  pose proof G as E; apply GenerateFromPassword_ok in E; subst w1.
  unfold userbus.port. cbn -[bcrypt.GenerateFromPassword].
  destruct (userbus.st_Create _ _ _) as [[e |] e3] eqn:C;
    cbn; intros H; inversion H; subst; clear H.
  cbn. rewrite <- !app_assoc, Nat.add_1_r.
  replace (reads w + 2) with (Datatypes.S (Datatypes.S (reads w))) by lia.
  repeat split; try exact C.
  rewrite GenerateFromPassword_unfold in G.
  destruct (72 <? _)%nat; [discriminate |].
  destruct (entropy w (reads w)); [| discriminate].
  cbv zeta in G. destruct (blowfish _ _ _) as [h [e |]]; [discriminate |].
  inversion G. reflexivity.
Qed.

(** C1, as the code has it.  A failure of [Authenticate] on a wrong
    password has the kind [ErrAuthenticationFailure], whatever bcrypt
    reported.  A failure of the lookup by email is the error of the
    storage port wrapped twice with the prefix that carries the email, and
    has the kind of that error. *)
Theorem Authenticate_failure_kinds (b : userbus.business S)
        (email : mail.Address) (password : string) (w : World) :
  let prefix := ("query: email[" ++ mail.format_s email ++ "]: ")%string in
  (forall usr err e1,
      userbus.st_QueryByEmail (userbus.storer b) email (env w)
      = ((usr, Some err), e1) ->
      fst (userbus.Authenticate b email password w)
      = (User_zero, Some (fmt.Errorf_w prefix (fmt.Errorf_w prefix err)))
      /\ userbus.kind (fmt.Errorf_w prefix (fmt.Errorf_w prefix err))
         = userbus.kind err)
  /\ (forall usr e1 cerr,
      userbus.st_QueryByEmail (userbus.storer b) email (env w)
      = ((usr, None), e1) ->
      bcrypt.CompareHashAndPassword (PasswordHash usr)
                                    (list_byte_of_string password)
      = Some cerr ->
      fst (userbus.Authenticate b email password w)
      = (User_zero,
         Some (fmt.Errorf_w "comparehashandpassword: "
                            userbus.ErrAuthenticationFailure))
      /\ userbus.kind (fmt.Errorf_w "comparehashandpassword: "
                                    userbus.ErrAuthenticationFailure)
         = userbus.ErrAuthenticationFailure).
Proof.
  intros prefix. split.
  - intros usr err e1 H.
    unfold userbus.Authenticate, userbus.QueryByEmail, with_span,
      userbus.port.
    cbn [emit env fst snd]. rewrite H. split; reflexivity.
  - intros usr e1 cerr H C.
    unfold userbus.Authenticate, userbus.QueryByEmail, with_span,
      userbus.port.
    cbn [emit env fst snd]. rewrite H. cbv iota beta. rewrite C.
    split; reflexivity.
Qed.

Lemma Authenticate_found (b : userbus.business S) (email : mail.Address)
      (password : string) (w : World) (usr : User) (e1 : Env) :
  userbus.st_QueryByEmail (userbus.storer b) email (env w)
  = ((usr, None), e1) ->
  fst (userbus.Authenticate b email password w)
  = match bcrypt.CompareHashAndPassword (PasswordHash usr)
            (list_byte_of_string password) with
    | Some _ => (User_zero,
                 Some (fmt.Errorf_w "comparehashandpassword: "
                                    userbus.ErrAuthenticationFailure))
    | None => (usr, None)
    end.
Proof.
  intros H.
  unfold userbus.Authenticate, userbus.QueryByEmail, with_span,
    userbus.port.
  cbn [emit env fst snd]. rewrite H. cbv iota beta.
  now destruct (bcrypt.CompareHashAndPassword _ _).
Qed.


(** C7, as the code has it.  An error returned by [Create], [Update],
    [Delete], [Query], [QueryByID] or [QueryByEmail] is the failure of the
    hash function, of the storage port or of the delegate, wrapped with a
    prefix that names the step; [Authenticate] wraps the failure of the
    lookup twice and reports a mismatch as a wrapped
    [ErrAuthenticationFailure]; [Count] and [NewWithTx] return the error
    of the storage port as it is. *)
Theorem errors_wrapped_but_Count_NewWithTx (b : userbus.business S)
        (w : World) :
  (forall actorID nu e,
      snd (fst (userbus.Create b actorID nu w)) = Some e ->
      (exists u, snd (userbus.hashing (nu_Password nu) w) = Some u
                 /\ e = fmt.Errorf_w "generatefrompassword: " u)
      \/ (exists usr u,
            fst (userbus.st_Create (userbus.storer b) usr (env w)) = Some u
            /\ e = fmt.Errorf_w "create: " u))
  /\ (forall actorID usr uu e,
      snd (fst (userbus.Update b actorID usr uu w)) = Some e ->
      (exists p u, uu_Password uu = Some p
                   /\ snd (userbus.hashing p w) = Some u
                   /\ e = fmt.Errorf_w "generatefrompassword: " u)
      \/ (exists usr' u,
            fst (userbus.st_Update (userbus.storer b) usr' (env w)) = Some u
            /\ e = fmt.Errorf_w "update: " u))
  /\ (forall actorID usr e,
      fst (userbus.Delete b actorID usr w) = Some e ->
      (exists u,
          fst (userbus.st_Delete (userbus.storer b) usr (env w)) = Some u
          /\ e = fmt.Errorf_w "delete: " u)
      \/ (exists u,
            fst (userbus.dg_Call (userbus.delegate b)
                   (userbus.ActionDeletedData (ID usr))
                   (snd (userbus.st_Delete (userbus.storer b) usr (env w))))
            = Some u
            /\ e = fmt.Errorf_w
                     ("failed to execute `" ++ ActionDeleted
                      ++ "` action: ")%string u))
  /\ (forall filter orderBy page e,
      snd (fst (userbus.Query b filter orderBy page w)) = Some e ->
      exists u,
        snd (fst (userbus.st_Query (userbus.storer b) filter orderBy page
                                   (env w))) = Some u
        /\ e = fmt.Errorf_w "query: " u)
  /\ (forall userID e,
      snd (fst (userbus.QueryByID b userID w)) = Some e ->
      exists u,
        snd (fst (userbus.st_QueryByID (userbus.storer b) userID (env w)))
        = Some u
        /\ e = fmt.Errorf_w
                 ("query: userID[" ++ uuid.String userID ++ "]: ")%string u)
  /\ (forall email e,
      snd (fst (userbus.QueryByEmail b email w)) = Some e ->
      exists u,
        snd (fst (userbus.st_QueryByEmail (userbus.storer b) email (env w)))
        = Some u
        /\ e = fmt.Errorf_w
                 ("query: email[" ++ mail.format_s email ++ "]: ")%string u)
  /\ (forall email password e,
      snd (fst (userbus.Authenticate b email password w)) = Some e ->
      (exists u,
          snd (fst (userbus.st_QueryByEmail (userbus.storer b) email (env w)))
          = Some u
          /\ e = fmt.Errorf_w
                   ("query: email[" ++ mail.format_s email ++ "]: ")%string
                   (fmt.Errorf_w
                      ("query: email[" ++ mail.format_s email ++ "]: ")%string
                      u))
      \/ e = fmt.Errorf_w "comparehashandpassword: "
                          userbus.ErrAuthenticationFailure)
  /\ (forall filter,
      snd (fst (userbus.Count b filter w))
      = snd (fst (userbus.st_Count (userbus.storer b) filter (env w))))
  /\ (forall tx,
      snd (userbus.NewWithTx b tx)
      = snd (userbus.st_NewWithTx (userbus.storer b) tx)).
Proof.
  repeat match goal with |- _ /\ _ => split end.
  - (* Create *)
    intros actorID nu e.
    unfold userbus.Create, with_span, userbus.hashing.
    change (emit (SpanStart "business.userbus.create") w)
      with (tt, snd (emit (SpanStart "business.userbus.create") w)).
    cbv iota beta zeta.
    rewrite GenerateFromPassword_emit.
    destruct (bcrypt.GenerateFromPassword _ _ w) as [[pw [ge |]] w1] eqn:G.
    + cbn. intros H; inversion H; subst. left. now exists ge.
    + pose proof G as E; apply GenerateFromPassword_ok in E; subst w1.
      unfold userbus.port. cbn -[bcrypt.GenerateFromPassword].
      destruct (userbus.st_Create _ _ _) as [[se |] e3] eqn:C;
        cbn; intros H; inversion H; subst.
      right. eexists; exists se. rewrite C. now split.
  - (* Update *)
    intros actorID usr uu e.
    unfold userbus.Update, with_span, userbus.hashing.
    change (emit (SpanStart "business.userbus.update") w)
      with (tt, snd (emit (SpanStart "business.userbus.update") w)).
    cbv iota beta zeta.
    destruct uu as [n em r d [p |] en]; cbn [uu_Password].
    + rewrite GenerateFromPassword_emit.
      destruct (bcrypt.GenerateFromPassword _ _ w) as [[pw [ge |]] w1] eqn:G.
      * cbn. intros H; inversion H; subst. left. exists p, ge.
        now rewrite G.
      * pose proof G as E; apply GenerateFromPassword_ok in E; subst w1.
        unfold userbus.port.
        destruct n, em, r, d, en; cbn -[bcrypt.GenerateFromPassword];
          (destruct (userbus.st_Update _ _ _) as [[se |] e3] eqn:U;
           cbn; intros H; inversion H; subst);
          right; eexists; exists se; rewrite U; now split.
    + unfold userbus.port.
      destruct n, em, r, d, en; cbn;
        (destruct (userbus.st_Update _ _ _) as [[se |] e3] eqn:U;
         cbn; intros H; inversion H; subst);
        right; eexists; exists se; rewrite U; now split.
  - (* Delete *)
    intros actorID usr e.
    unfold userbus.Delete, with_span, userbus.port, userbus.Delegate_Call.
    cbn [emit env fst snd].
    destruct (userbus.st_Delete _ _ _) as [[se |] e1] eqn:D.
    + cbn. intros H; inversion H; subst. left. now exists se.
    + cbn [set_env env emit fst snd].
      destruct (userbus.dg_Call _ _ _) as [[de |] e2] eqn:C;
        cbn; intros H; inversion H; subst.
      right. now exists de.
  - (* Query *)
    intros filter orderBy page e.
    unfold userbus.Query, with_span, userbus.port.
    cbn [emit env fst snd].
    destruct (userbus.st_Query _ _ _ _ _) as [[us [se |]] e1];
      cbn; intros H; inversion H; subst. now exists se.
  - (* QueryByID *)
    intros userID e.
    unfold userbus.QueryByID, with_span, userbus.port.
    cbn [emit env fst snd].
    destruct (userbus.st_QueryByID _ _ _) as [[us [se |]] e1];
      cbn; intros H; inversion H; subst. now exists se.
  - (* QueryByEmail *)
    intros email e.
    unfold userbus.QueryByEmail, with_span, userbus.port.
    cbn [emit env fst snd].
    destruct (userbus.st_QueryByEmail _ _ _) as [[us [se |]] e1];
      cbn; intros H; inversion H; subst. now exists se.
  - (* Authenticate *)
    intros email password e.
    unfold userbus.Authenticate, userbus.QueryByEmail, with_span,
      userbus.port.
    cbn [emit env fst snd].
    destruct (userbus.st_QueryByEmail _ _ _) as [[us [se |]] e1].
    + cbn. intros H; inversion H; subst. left. now exists se.
    + cbv iota beta.
      destruct (bcrypt.CompareHashAndPassword _ _);
        cbn; intros H; inversion H; subst. now right.
  - (* Count *)
    intros filter.
    unfold userbus.Count, with_span, userbus.port.
    cbn [emit env fst snd].
    now destruct (userbus.st_Count _ _ _) as [[n se] e1].
  - (* NewWithTx *)
    intros tx. unfold userbus.NewWithTx.
    now destruct (userbus.st_NewWithTx _ _) as [s' [se |]].
Qed.

End CoreFacts.

(* ================================================================= *)
(** * The in-memory world at work *)

Import memory.

Lemma returned_ok {A W : Type} (x : A * option error * W) :
  snd (fst x) = None -> x = ((fst (fst x), None), snd x).
Proof. destruct x as [[a e] w]; simpl; intros ->; reflexivity. Qed.

(** C1, counterexample: in the in-memory world the failure for an unknown
    email ends in [ErrNotFound] and the failure for a wrong password ends in
    [ErrAuthenticationFailure]; [errors.Is] tells them apart. *)
Lemma Authenticate_kinds_differ :
  let prefix := "query: email[{ bob@x.io}]: " in
  let unknown :=
    fmt.Errorf_w prefix
      (fmt.Errorf_w prefix (fmt.Errorf_w "db: " userbus.ErrNotFound)) in
  let mismatch :=
    fmt.Errorf_w "comparehashandpassword: " userbus.ErrAuthenticationFailure in
  fst (userbus.Authenticate memory.bus memory.bob "s3cret!" memory.world1)
  = (User_zero, Some unknown)
  /\ fst (userbus.Authenticate memory.bus (nu_Email memory.ada) "s3cret?"
                               memory.world1)
     = (User_zero, Some mismatch)
  /\ userbus.kind unknown = userbus.ErrNotFound
  /\ userbus.kind mismatch = userbus.ErrAuthenticationFailure
  /\ userbus.kind unknown <> userbus.kind mismatch
  /\ errors.Is unknown userbus.ErrAuthenticationFailure = false
  /\ errors.Is mismatch userbus.ErrAuthenticationFailure = true.
Proof.
  cbv zeta. repeat split; try (vm_compute; reflexivity).
  vm_compute. discriminate.
Qed.

(** C1: an unknown email and a wrong password in the in-memory world. *)
Lemma Authenticate_failure_kinds_witness :
  let prefix := ("query: email[" ++ mail.format_s memory.bob ++ "]: ")%string in
  let missing := fmt.Errorf_w "db: " userbus.ErrNotFound in
  (userbus.st_QueryByEmail (userbus.storer memory.bus) memory.bob
                           (env memory.world1)
   = ((User_zero, Some missing), env memory.world1)
   /\ fst (userbus.Authenticate memory.bus memory.bob "s3cret!" memory.world1)
      = (User_zero, Some (fmt.Errorf_w prefix (fmt.Errorf_w prefix missing)))
   /\ userbus.kind (fmt.Errorf_w prefix (fmt.Errorf_w prefix missing))
      = userbus.kind missing)
  /\ (userbus.st_QueryByEmail (userbus.storer memory.bus) (nu_Email memory.ada)
                              (env memory.world1)
      = ((memory.ada_user, None), env memory.world1)
      /\ bcrypt.CompareHashAndPassword (PasswordHash memory.ada_user)
                                       (list_byte_of_string "s3cret?")
         = Some bcrypt.ErrMismatchedHashAndPassword
      /\ fst (userbus.Authenticate memory.bus (nu_Email memory.ada) "s3cret?"
                                   memory.world1)
         = (User_zero,
            Some (fmt.Errorf_w "comparehashandpassword: "
                               userbus.ErrAuthenticationFailure))
      /\ userbus.kind (fmt.Errorf_w "comparehashandpassword: "
                                    userbus.ErrAuthenticationFailure)
         = userbus.ErrAuthenticationFailure).
Proof.
  cbv zeta. split.
  - split; [vm_compute; reflexivity |].
    apply (proj1 (Authenticate_failure_kinds memory.bus memory.bob "s3cret!"
                                             memory.world1)
                 User_zero (fmt.Errorf_w "db: " userbus.ErrNotFound)
                 (env memory.world1)).
    vm_compute; reflexivity.
  - split; [vm_compute; reflexivity |].
    split; [vm_compute; reflexivity |].
    apply (proj2 (Authenticate_failure_kinds memory.bus (nu_Email memory.ada)
                                             "s3cret?" memory.world1)
                 memory.ada_user (env memory.world1)
                 bcrypt.ErrMismatchedHashAndPassword);
      vm_compute; reflexivity.
Defined.

(** C2: Ada is disabled and given a new password. *)
Lemma Update_overwrites_present_fields_witness :
  let usr := memory.ada_user in
  let uu := memory.disable in
  let w := memory.world1 in
  let u' := fst (fst memory.updated) in
  let w' := snd memory.updated in
  userbus.Update memory.bus memory.actor usr uu w = ((u', None), w')
  /\ (Name u' = userbus.pick (uu_Name uu) (Name usr)
      /\ Email u' = userbus.pick (uu_Email uu) (Email usr)
      /\ Roles u' = match uu_Roles uu with
                    | Some _ => uu_Roles uu
                    | None => Roles usr
                    end
      /\ Department u' = userbus.pick (uu_Department uu) (Department usr)
      /\ Enabled u' = userbus.pick (uu_Enabled uu) (Enabled usr)
      /\ PasswordHash u' = match uu_Password uu with
                           | Some p => fst (userbus.hashing p w)
                           | None => PasswordHash usr
                           end
      /\ (forall p, uu_Password uu = Some p -> snd (userbus.hashing p w) = None)
      /\ ID u' = ID usr
      /\ DateCreated u' = DateCreated usr
      /\ DateUpdated u' = clock w (reads w + match uu_Password uu with
                                             | Some _ => 1
                                             | None => 0
                                             end)
      /\ userbus.st_Update (userbus.storer memory.bus) u' (env w) = (None, env w')
      /\ trace w' = trace w ++ [SpanStart "business.userbus.update";
                                StorerCall (OpUpdate u');
                                SpanEnd "business.userbus.update"]).
Proof.
  cbv zeta.
  assert (H : userbus.Update memory.bus memory.actor memory.ada_user
                             memory.disable memory.world1
              = ((fst (fst memory.updated), None), snd memory.updated))
    by (apply (returned_ok memory.updated); vm_compute; reflexivity).
  split; [exact H |].
  exact (Update_overwrites_present_fields _ _ _ _ _ H).
Defined.

(** C3: Ada is created in the empty world. *)
Lemma Create_builds_the_record_witness :
  let nu := memory.ada in
  let w := memory.world0 in
  let u := memory.ada_user in
  let w' := memory.world1 in
  userbus.Create memory.bus memory.actor nu w = ((u, None), w')
  /\ (userbus.hashing (nu_Password nu) w = (PasswordHash u, None)
      /\ firstn 7 (PasswordHash u) = list_byte_of_string "$2a$10$"
      /\ ID u = fit 16 (uuids w (reads w + 2))
      /\ DateCreated u = clock w (reads w + 1)
      /\ DateUpdated u = clock w (reads w + 1)
      /\ Enabled u = true
      /\ Name u = nu_Name nu
      /\ Email u = nu_Email nu
      /\ Roles u = nu_Roles nu
      /\ Department u = nu_Department nu
      /\ userbus.st_Create (userbus.storer memory.bus) u (env w) = (None, env w')
      /\ trace w' = trace w ++ [SpanStart "business.userbus.create";
                                StorerCall (OpCreate u);
                                SpanEnd "business.userbus.create"]).
Proof.
  cbv zeta.
  assert (H : userbus.Create memory.bus memory.actor memory.ada memory.world0
              = ((memory.ada_user, None), memory.world1))
    by (apply (returned_ok memory.created); vm_compute; reflexivity).
  split; [exact H |].
  exact (Create_builds_the_record _ _ _ _ H).
Defined.

(** The delegate fails after the storage delete: [Delete] reports the
    failure and Ada stays deleted. *)
Lemma Delete_storage_then_event_witness :
  let usr := memory.ada_user in
  let w := memory.world1 in
  let gone := memory.mkDB [] None in
  let data := userbus.ActionDeletedData (ID usr) in
  userbus.st_Delete (userbus.storer memory.deaf_bus) usr (env w) = (None, gone)
  /\ userbus.dg_Call (userbus.delegate memory.deaf_bus) data gone
     = (Some memory.unheard, gone)
  /\ userbus.Delete memory.deaf_bus memory.actor usr w
     = (Some (fmt.Errorf_w "failed to execute `deleted` action: " memory.unheard),
        userbus.emit_all [SpanStart "business.userbus.delete";
                          StorerCall (OpDelete usr);
                          DelegateCall data;
                          SpanEnd "business.userbus.delete"]
                         (set_env gone w))
  /\ memory.rows (env w) = [usr]
  /\ memory.rows (env (snd (userbus.Delete memory.deaf_bus memory.actor usr w)))
     = [].
Proof.
  cbv zeta.
  split; [vm_compute; reflexivity |].
  split; [vm_compute; reflexivity |].
  split.
  - apply (proj2 (Delete_storage_then_event memory.deaf_bus memory.actor
                                            memory.ada_user memory.world1)
                 (memory.mkDB [] None) (Some memory.unheard)
                 (memory.mkDB [] None));
      vm_compute; reflexivity.
  - split; vm_compute; reflexivity.
Defined.

(** The call order of the ordering test, with a nil entry between the two
    plugins. *)
Example plugin_order_A_B :
  trace (snd (userbus.Business_Create
                (userbus.NewBusiness tt memory.quiet tt
                   (userbus.recorders [Some "A"%string; None; Some "B"%string]))
                memory.actor memory.ada memory.world0))
  = [PluginEnter "A"; PluginEnter "B";
     SpanStart "business.userbus.create";
     StorerCall (OpCreate memory.ada_user);
     SpanEnd "business.userbus.create";
     PluginExit "B"; PluginExit "A"].
Proof. vm_compute; reflexivity. Qed.





Module sealed_run.
Import sealed.


End sealed_run.

(** C7, counterexample: [Count] returns the error of the storage port as
    it is, and that error is no wrapped error. *)
Lemma Count_error_not_wrapped :
  let w := memory.broken memory.refused memory.world0 in
  snd (fst (userbus.st_Count (userbus.storer memory.bus) tt (env w)))
  = Some memory.refused
  /\ snd (fst (userbus.Count memory.bus tt w)) = Some memory.refused
  /\ (forall prefix underlying,
        memory.refused <> fmt.Errorf_w prefix underlying).
Proof.
  cbv zeta. split; [vm_compute; reflexivity |].
  split; [vm_compute; reflexivity |].
  intros prefix underlying. discriminate.
Qed.

(** C7: [Query] against a storage port that refuses every call. *)
Lemma errors_wrapped_but_Count_NewWithTx_witness :
  let w := memory.broken memory.refused memory.world0 in
  snd (fst (userbus.Query memory.bus tt tt tt w))
  = Some (fmt.Errorf_w "query: " memory.refused)
  /\ exists u,
       snd (fst (userbus.st_Query (userbus.storer memory.bus) tt tt tt (env w)))
       = Some u
       /\ fmt.Errorf_w "query: " memory.refused = fmt.Errorf_w "query: " u.
Proof.
  cbv zeta. split; [vm_compute; reflexivity |].
  apply (proj1 (proj2 (proj2 (proj2
           (errors_wrapped_but_Count_NewWithTx memory.bus
              (memory.broken memory.refused memory.world0)))))
           tt tt tt).
  vm_compute; reflexivity.
Defined.

(** C8: a usable and an unusable transaction handle. *)
Lemma NewWithTx_rebinds_witness :
  fst (userbus.NewWithTx memory.bus true) = Some memory.bus
  /\ snd (userbus.NewWithTx memory.bus false)
     = Some (errors.New "Transactor(false) not supported")
  /\ (userbus.storer memory.bus
      = fst (userbus.st_NewWithTx (userbus.storer memory.bus) true)
      /\ userbus.log memory.bus = userbus.log memory.bus
      /\ userbus.delegate memory.bus = userbus.delegate memory.bus).
Proof.
  split; [reflexivity |]. split; [reflexivity |].
  apply (proj2 (proj2 (NewWithTx_rebinds memory.bus true)) memory.bus).
  reflexivity.
Defined.

(** C9: an identifier and an email that the storage port does not find. *)
Lemma QueryBy_failure_names_key_witness :
  let missing := fmt.Errorf_w "db: " userbus.ErrNotFound in
  userbus.st_QueryByID (userbus.storer memory.bus) memory.actor
                       (env memory.world1)
  = ((User_zero, Some missing), env memory.world1)
  /\ (exists e,
        fst (userbus.QueryByID memory.bus memory.actor memory.world1)
        = (User_zero, Some e)
        /\ errors.Unwrap e = Some missing
        /\ errors.Error e
           = ("query: userID[" ++ uuid.String memory.actor ++ "]: "
              ++ errors.Error missing)%string
        /\ userbus.mentions (errors.Error e) (uuid.String memory.actor))
  /\ userbus.st_QueryByEmail (userbus.storer memory.bus) memory.bob
                             (env memory.world1)
     = ((User_zero, Some missing), env memory.world1)
  /\ (exists e,
        fst (userbus.QueryByEmail memory.bus memory.bob memory.world1)
        = (User_zero, Some e)
        /\ errors.Unwrap e = Some missing
        /\ errors.Error e
           = ("query: email[" ++ mail.format_s memory.bob ++ "]: "
              ++ errors.Error missing)%string
        /\ userbus.mentions (errors.Error e) (mail.Addr memory.bob)).
Proof.
  cbv zeta.
  split; [vm_compute; reflexivity |]. split.
  - apply (proj1 (QueryBy_failure_names_key memory.bus memory.world1)
                 memory.actor User_zero
                 (fmt.Errorf_w "db: " userbus.ErrNotFound)
                 (env memory.world1)).
    vm_compute; reflexivity.
  - split; [vm_compute; reflexivity |].
    apply (proj2 (QueryBy_failure_names_key memory.bus memory.world1)
                 memory.bob User_zero
                 (fmt.Errorf_w "db: " userbus.ErrNotFound)
                 (env memory.world1)).
    vm_compute; reflexivity.
Defined.

(** C10: a rename that carries a password of 73 bytes. *)
Lemma Update_hash_failure_stores_nothing_witness :
  let usr := memory.ada_user in
  let uu := memory.rename in
  let w := memory.world1 in
  uu_Password uu = Some memory.p73
  /\ snd (userbus.hashing memory.p73 w) = Some bcrypt.ErrPasswordTooLong
  /\ exists w',
      userbus.Update memory.bus memory.actor usr uu w
      = ((User_zero,
          Some (fmt.Errorf_w "generatefrompassword: " bcrypt.ErrPasswordTooLong)),
         w')
      /\ env w' = env w
      /\ trace w' = trace w ++ [SpanStart "business.userbus.update";
                                SpanEnd "business.userbus.update"]
      /\ (forall op, ~ In (StorerCall op) (skipn (length (trace w)) (trace w'))).
Proof.
  cbv zeta.
  split; [reflexivity |]. split; [vm_compute; reflexivity |].
  apply (@Update_hash_failure_stores_nothing _ _ _ memory.bus memory.actor
           memory.ada_user memory.rename memory.world1 memory.p73).
  - reflexivity.
  - vm_compute; reflexivity.
Defined.

(* ================================================================= *)
(** * Further properties of the operations *)

Section RunFacts.

Context {P : Platform} {S : Type} {St : userbus.Storer S}.

(** [Create], step by step. *)
Lemma Create_run (b : userbus.business S) (actorID : uuid.UUID)
      (nu : NewUser) (w : World) :
  userbus.Create b actorID nu w
  = let '((h, herr), wg) :=
      bcrypt.GenerateFromPassword (list_byte_of_string (nu_Password nu))
                                  bcrypt.DefaultCost w in
    match herr with
    | Some err =>
        ((User_zero, Some (fmt.Errorf_w "generatefrompassword: " err)),
         userbus.emit_all [SpanStart "business.userbus.create";
                           SpanEnd "business.userbus.create"] wg)
    | None =>
        let u := created_record nu h w in
        let '(serr, e') := userbus.st_Create (userbus.storer b) u (env w) in
        (match serr with
         | Some err => (User_zero, Some (fmt.Errorf_w "create: " err))
         | None => (u, None)
         end,
         userbus.emit_all [SpanStart "business.userbus.create";
                           StorerCall (OpCreate u);
                           SpanEnd "business.userbus.create"]
                          (set_env e' (drawn 3 w)))
    end.
Proof.
  unfold userbus.Create, with_span.
  change (emit (SpanStart "business.userbus.create") w)
    with (tt, snd (emit (SpanStart "business.userbus.create") w)).
  cbv iota beta zeta.
  rewrite GenerateFromPassword_emit.
  destruct (bcrypt.GenerateFromPassword _ _ w) as [[h [e |]] wg] eqn:G.
  - unfold userbus.emit_all. cbn. now rewrite <- app_assoc.
  - pose proof G as E; apply GenerateFromPassword_ok in E; subst wg.
    unfold userbus.port, created_record.
    rewrite !(Nat.add_comm (reads w)).
    cbn -[bcrypt.GenerateFromPassword].
    destruct (userbus.st_Create _ _ _) as [[e |] e3];
      unfold userbus.emit_all; cbn; now rewrite <- !app_assoc.
Qed.

(** [Update], step by step. *)
Lemma Update_run (b : userbus.business S) (actorID : uuid.UUID)
      (usr : User) (uu : UpdateUser) (w : World) :
  userbus.Update b actorID usr uu w
  = let finish (pw : option bytes) (n : nat) :=
      let u := merged usr uu pw (clock w (n + reads w)) in
      let '(serr, e') := userbus.st_Update (userbus.storer b) u (env w) in
      (match serr with
       | Some err => (User_zero, Some (fmt.Errorf_w "update: " err))
       | None => (u, None)
       end,
       userbus.emit_all [SpanStart "business.userbus.update";
                         StorerCall (OpUpdate u);
                         SpanEnd "business.userbus.update"]
                        (set_env e' (drawn (Datatypes.S n) w))) in
    match uu_Password uu with
    | Some p =>
        let '((h, herr), wg) :=
          bcrypt.GenerateFromPassword (list_byte_of_string p)
                                      bcrypt.DefaultCost w in
        match herr with
        | Some err =>
            ((User_zero, Some (fmt.Errorf_w "generatefrompassword: " err)),
             userbus.emit_all [SpanStart "business.userbus.update";
                               SpanEnd "business.userbus.update"] wg)
        | None => finish (Some h) 1
        end
    | None => finish None 0
    end.
Proof.
  unfold userbus.Update, with_span.
  change (emit (SpanStart "business.userbus.update") w)
    with (tt, snd (emit (SpanStart "business.userbus.update") w)).
  cbv iota beta zeta.
  destruct uu as [n em r d [p |] en]; cbn [uu_Password].
  - rewrite GenerateFromPassword_emit.
    destruct (bcrypt.GenerateFromPassword _ _ w) as [[h [e |]] wg] eqn:G.
    + unfold userbus.emit_all. cbn. now rewrite <- app_assoc.
    + pose proof G as E; apply GenerateFromPassword_ok in E; subst wg.
      unfold userbus.port, merged.
      destruct n, em, r, d, en; cbn -[bcrypt.GenerateFromPassword];
        (destruct (userbus.st_Update _ _ _) as [[e |] e3]);
        unfold userbus.emit_all; cbn; now rewrite <- !app_assoc.
  - unfold userbus.port, merged.
    destruct n, em, r, d, en; cbn;
      (destruct (userbus.st_Update _ _ _) as [[e |] e3]);
      unfold userbus.emit_all; cbn; now rewrite <- !app_assoc.
Qed.


Lemma Delete_run (b : userbus.business S) (actorID : uuid.UUID) (usr : User)
      (w : World) :
  userbus.Delete b actorID usr w
  = let '(serr, e1) := userbus.st_Delete (userbus.storer b) usr (env w) in
    match serr with
    | Some err =>
        (Some (fmt.Errorf_w "delete: " err),
         userbus.emit_all [SpanStart "business.userbus.delete";
                           StorerCall (OpDelete usr);
                           SpanEnd "business.userbus.delete"]
                          (set_env e1 w))
    | None =>
        let data := userbus.ActionDeletedData (ID usr) in
        let '(derr, e2) := userbus.dg_Call (userbus.delegate b) data e1 in
        (match derr with
         | Some err =>
             Some (fmt.Errorf_w
                     ("failed to execute `" ++ ActionDeleted ++ "` action: ")%string
                     err)
         | None => None
         end,
         userbus.emit_all [SpanStart "business.userbus.delete";
                           StorerCall (OpDelete usr);
                           DelegateCall data;
                           SpanEnd "business.userbus.delete"]
                          (set_env e2 w))
    end.
Proof.
  unfold userbus.Delete, with_span, userbus.port, userbus.Delegate_Call.
  cbn [emit env fst snd].
  destruct (userbus.st_Delete _ _ _) as [[se |] e1].
  - unfold userbus.emit_all, set_env; cbn. now rewrite <- !app_assoc.
  - cbn [set_env env emit fst snd]. cbv zeta.
    destruct (userbus.dg_Call _ _ _) as [[de |] e2];
      unfold userbus.emit_all, set_env; cbn; now rewrite <- !app_assoc.
Qed.

Lemma Query_run (b : userbus.business S) (filter : QueryFilter)
      (orderBy : OrderBy) (page : Page) (w : World) :
  userbus.Query b filter orderBy page w
  = let '((users, err), e1) :=
      userbus.st_Query (userbus.storer b) filter orderBy page (env w) in
    (match err with
     | Some err => ([], Some (fmt.Errorf_w "query: " err))
     | None => (users, None)
     end,
     userbus.emit_all [SpanStart "business.userbus.query";
                       StorerCall (OpQuery filter orderBy page);
                       SpanEnd "business.userbus.query"]
                      (set_env e1 w)).
Proof.
  unfold userbus.Query, with_span, userbus.port.
  cbn [emit env fst snd].
  destruct (userbus.st_Query _ _ _ _ _) as [[us [se |]] e1];
    unfold userbus.emit_all, set_env; cbn; now rewrite <- !app_assoc.
Qed.

Lemma Count_run (b : userbus.business S) (filter : QueryFilter) (w : World) :
  userbus.Count b filter w
  = let '(r, e1) := userbus.st_Count (userbus.storer b) filter (env w) in
    (r, userbus.emit_all [SpanStart "business.userbus.count";
                          StorerCall (OpCount filter);
                          SpanEnd "business.userbus.count"]
                         (set_env e1 w)).
Proof.
  unfold userbus.Count, with_span, userbus.port.
  cbn [emit env fst snd].
  destruct (userbus.st_Count _ _ _) as [r e1];
    unfold userbus.emit_all, set_env; cbn; now rewrite <- !app_assoc.
Qed.

Lemma QueryByID_run (b : userbus.business S) (userID : uuid.UUID) (w : World) :
  userbus.QueryByID b userID w
  = let '((user, err), e1) :=
      userbus.st_QueryByID (userbus.storer b) userID (env w) in
    (match err with
     | Some err =>
         (User_zero,
          Some (fmt.Errorf_w
                  ("query: userID[" ++ uuid.String userID ++ "]: ")%string err))
     | None => (user, None)
     end,
     userbus.emit_all [SpanStart "business.userbus.querybyid";
                       StorerCall (OpQueryByID userID);
                       SpanEnd "business.userbus.querybyid"]
                      (set_env e1 w)).
Proof.
  unfold userbus.QueryByID, with_span, userbus.port.
  cbn [emit env fst snd].
  destruct (userbus.st_QueryByID _ _ _) as [[us [se |]] e1];
    unfold userbus.emit_all, set_env; cbn; now rewrite <- !app_assoc.
Qed.

Lemma QueryByEmail_run (b : userbus.business S) (email : mail.Address)
      (w : World) :
  userbus.QueryByEmail b email w
  = let '((user, err), e1) :=
      userbus.st_QueryByEmail (userbus.storer b) email (env w) in
    (match err with
     | Some err =>
         (User_zero,
          Some (fmt.Errorf_w
                  ("query: email[" ++ mail.format_s email ++ "]: ")%string err))
     | None => (user, None)
     end,
     userbus.emit_all [SpanStart "business.userbus.querybyemail";
                       StorerCall (OpQueryByEmail email);
                       SpanEnd "business.userbus.querybyemail"]
                      (set_env e1 w)).
Proof.
  unfold userbus.QueryByEmail, with_span, userbus.port.
  cbn [emit env fst snd].
  destruct (userbus.st_QueryByEmail _ _ _) as [[us [se |]] e1];
    unfold userbus.emit_all, set_env; cbn; now rewrite <- !app_assoc.
Qed.

Lemma Authenticate_run (b : userbus.business S) (email : mail.Address)
      (password : string) (w : World) :
  userbus.Authenticate b email password w
  = let '((usr, err), e1) :=
      userbus.st_QueryByEmail (userbus.storer b) email (env w) in
    let prefix := ("query: email[" ++ mail.format_s email ++ "]: ")%string in
    (match err with
     | Some err =>
         (User_zero, Some (fmt.Errorf_w prefix (fmt.Errorf_w prefix err)))
     | None =>
         match bcrypt.CompareHashAndPassword (PasswordHash usr)
                 (list_byte_of_string password) with
         | Some _ =>
             (User_zero,
              Some (fmt.Errorf_w "comparehashandpassword: "
                                 userbus.ErrAuthenticationFailure))
         | None => (usr, None)
         end
     end,
     userbus.emit_all [SpanStart "business.userbus.authenticate";
                       SpanStart "business.userbus.querybyemail";
                       StorerCall (OpQueryByEmail email);
                       SpanEnd "business.userbus.querybyemail";
                       SpanEnd "business.userbus.authenticate"]
                      (set_env e1 w)).
Proof.
  unfold userbus.Authenticate, userbus.QueryByEmail, with_span, userbus.port.
  cbn [emit env fst snd].
  destruct (userbus.st_QueryByEmail _ _ _) as [[us [se |]] e1].
  - unfold userbus.emit_all, set_env; cbn. now rewrite <- !app_assoc.
  - cbv iota beta zeta.
    destruct (bcrypt.CompareHashAndPassword _ _);
      unfold userbus.emit_all, set_env; cbn; now rewrite <- !app_assoc.
Qed.


Lemma since_emit_all (w w1 : World) (evs : list Event) :
  trace w1 = trace w -> since w (userbus.emit_all evs w1) = evs.
Proof.
  intros T. unfold since, userbus.emit_all. cbn [trace].
  rewrite T, skipn_app, skipn_all, Nat.sub_diag. reflexivity.
Qed.

Lemma GenerateFromPassword_frame (pw : bytes) (w : World) r wg :
  bcrypt.GenerateFromPassword pw bcrypt.DefaultCost w = (r, wg) ->
  trace wg = trace w /\ env wg = env w.
Proof.
  intros G. apply GenerateFromPassword_world in G.
  destruct G as [[-> _] | ->]; now split.
Qed.

(** A wrapper keeps every sentinel of the error it wraps in reach of
    [errors.Is]. *)
Lemma Is_Errorf_w (prefix : string) (u target : error) :
  errors.Is u target = true ->
  errors.Is (fmt.Errorf_w prefix u) target = true.
Proof. intros H. cbn. rewrite H. apply orb_true_r. Qed.

Lemma merged_again (usr : User) (uu : UpdateUser) (t1 t2 : Time) :
  merged (merged usr uu None t1) uu None t2 = merged usr uu None t2.
Proof.
  unfold merged. cbn.
  destruct (uu_Name uu), (uu_Email uu), (uu_Roles uu), (uu_Department uu),
    (uu_Enabled uu); reflexivity.
Qed.

(** X1.  A request whose password has more than 72 bytes is refused by
    [Create] before anything else happens: the zero [User] and
    [ErrPasswordTooLong] under the prefix of the hashing step are returned,
    no value is drawn from the clock, the identifiers or the random bytes,
    the storage port is not called, and the trace gains the span alone. *)
Theorem Create_refuses_long_password (b : userbus.business S)
        (actorID : uuid.UUID) (nu : NewUser) (w : World) :
  72 < length (list_byte_of_string (nu_Password nu)) ->
  userbus.Create b actorID nu w
  = ((User_zero,
      Some (fmt.Errorf_w "generatefrompassword: " bcrypt.ErrPasswordTooLong)),
     userbus.emit_all [SpanStart "business.userbus.create";
                       SpanEnd "business.userbus.create"] w).
Proof.
  intros L. rewrite Create_run, GenerateFromPassword_unfold.
  apply Nat.ltb_lt in L. now rewrite L.
Qed.

(** X2.  [Create] returns no error exactly when the password could be
    hashed and the storage port took the record built from the request; and
    when both hold, what [Create] returns is that record with no error. *)
Theorem Create_succeeds_iff (b : userbus.business S) (actorID : uuid.UUID)
        (nu : NewUser) (w : World) :
  (snd (fst (userbus.Create b actorID nu w)) = None
   <-> exists h,
         userbus.hashing (nu_Password nu) w = (h, None)
         /\ fst (userbus.st_Create (userbus.storer b) (created_record nu h w)
                                   (env w)) = None)
  /\ (forall h,
        userbus.hashing (nu_Password nu) w = (h, None) ->
        fst (userbus.st_Create (userbus.storer b) (created_record nu h w)
                               (env w)) = None ->
        fst (userbus.Create b actorID nu w) = (created_record nu h w, None)).
Proof.
  rewrite Create_run. unfold userbus.hashing.
  destruct (bcrypt.GenerateFromPassword _ _ w) as [[h [e |]] wg].
  - cbn [fst snd]. split.
    + split; [discriminate |]. intros (h' & H & _). discriminate.
    + intros h' H. discriminate.
  - cbv zeta.
    destruct (userbus.st_Create _ _ _) as [[e |] e3] eqn:C; cbn [fst snd].
    + split.
      * split; [discriminate |]. intros (h' & H & C').
        inversion H; subst h'. rewrite C in C'. discriminate.
      * intros h' H C'. inversion H; subst h'. rewrite C in C'. discriminate.
    + split.
      * split; [| reflexivity]. intros _. exists h. rewrite C. now split.
      * intros h' H _. inversion H; subst h'. reflexivity.
Qed.

(** X3.  Whatever sentinel [errors.Is] finds in the error of the storage
    port, it finds in the error that [Create], [Update], [Delete], [Query],
    [QueryByID], [QueryByEmail] or [Authenticate] returns for that failure:
    the prefixes do not hide [ErrUniqueEmail] or [ErrNotFound]. *)
Theorem storage_error_stays_in_reach (b : userbus.business S) (w : World)
        (target : error) :
  (forall actorID nu h err e1,
      userbus.hashing (nu_Password nu) w = (h, None) ->
      userbus.st_Create (userbus.storer b) (created_record nu h w) (env w)
      = (Some err, e1) ->
      errors.Is err target = true ->
      exists e, fst (userbus.Create b actorID nu w) = (User_zero, Some e)
                /\ errors.Is e target = true)
  /\ (forall actorID usr uu err e1,
        uu_Password uu = None ->
        userbus.st_Update (userbus.storer b)
                          (merged usr uu None (clock w (reads w))) (env w)
        = (Some err, e1) ->
        errors.Is err target = true ->
        exists e, fst (userbus.Update b actorID usr uu w) = (User_zero, Some e)
                  /\ errors.Is e target = true)
  /\ (forall actorID usr uu p h err e1,
        uu_Password uu = Some p ->
        userbus.hashing p w = (h, None) ->
        userbus.st_Update (userbus.storer b)
                          (merged usr uu (Some h) (clock w (1 + reads w)))
                          (env w)
        = (Some err, e1) ->
        errors.Is err target = true ->
        exists e, fst (userbus.Update b actorID usr uu w) = (User_zero, Some e)
                  /\ errors.Is e target = true)
  /\ (forall actorID usr err e1,
        userbus.st_Delete (userbus.storer b) usr (env w) = (Some err, e1) ->
        errors.Is err target = true ->
        exists e, fst (userbus.Delete b actorID usr w) = Some e
                  /\ errors.Is e target = true)
  /\ (forall filter orderBy page users err e1,
        userbus.st_Query (userbus.storer b) filter orderBy page (env w)
        = ((users, Some err), e1) ->
        errors.Is err target = true ->
        exists e, fst (userbus.Query b filter orderBy page w) = ([], Some e)
                  /\ errors.Is e target = true)
  /\ (forall userID usr err e1,
        userbus.st_QueryByID (userbus.storer b) userID (env w)
        = ((usr, Some err), e1) ->
        errors.Is err target = true ->
        exists e, fst (userbus.QueryByID b userID w) = (User_zero, Some e)
                  /\ errors.Is e target = true)
  /\ (forall email password usr err e1,
        userbus.st_QueryByEmail (userbus.storer b) email (env w)
        = ((usr, Some err), e1) ->
        errors.Is err target = true ->
        (exists e, fst (userbus.QueryByEmail b email w) = (User_zero, Some e)
                   /\ errors.Is e target = true)
        /\ (exists e,
              fst (userbus.Authenticate b email password w)
              = (User_zero, Some e)
              /\ errors.Is e target = true)).
Proof.
  repeat match goal with |- _ /\ _ => split end.
  - intros actorID nu h err e1 H C I.
    rewrite Create_run. unfold userbus.hashing in H.
    destruct (bcrypt.GenerateFromPassword _ _ w) as [r wg].
    cbn [fst] in H. subst r. cbv zeta. rewrite C. cbn.
    eexists; split; [reflexivity |]. now apply Is_Errorf_w.
  - intros actorID usr uu err e1 Hp U I.
    rewrite Update_run, Hp. cbv zeta. cbn [Nat.add]. rewrite U. cbn.
    eexists; split; [reflexivity |]. now apply Is_Errorf_w.
  - intros actorID usr uu p h err e1 Hp H U I.
    rewrite Update_run, Hp. unfold userbus.hashing in H.
    destruct (bcrypt.GenerateFromPassword _ _ w) as [r wg].
    cbn [fst] in H. subst r. cbv beta zeta. rewrite U. cbn [fst].
    eexists; split; [reflexivity |]. now apply Is_Errorf_w.
  - intros actorID usr err e1 D I.
    rewrite Delete_run, D. cbn.
    eexists; split; [reflexivity |]. now apply Is_Errorf_w.
  - intros filter orderBy page users err e1 Q I.
    rewrite Query_run, Q. cbn.
    eexists; split; [reflexivity |]. now apply Is_Errorf_w.
  - intros userID usr err e1 Q I.
    rewrite QueryByID_run, Q. cbn.
    eexists; split; [reflexivity |]. now apply Is_Errorf_w.
  - intros email password usr err e1 Q I. split.
    + rewrite QueryByEmail_run, Q. cbn.
      eexists; split; [reflexivity |]. now apply Is_Errorf_w.
    + rewrite Authenticate_run, Q. cbn.
      eexists; split; [reflexivity |]. now apply Is_Errorf_w, Is_Errorf_w.
Qed.


(** X4.  An operation that returns an error returns no data with it: the
    zero [User] for [Create], [Update], [QueryByID], [QueryByEmail] and
    [Authenticate], the nil list for [Query], whatever the storage port
    handed back beside its error. *)
Theorem results_on_error_are_zero (b : userbus.business S) (w : World) :
  (forall actorID nu,
      snd (fst (userbus.Create b actorID nu w)) <> None ->
      fst (fst (userbus.Create b actorID nu w)) = User_zero)
  /\ (forall actorID usr uu,
        snd (fst (userbus.Update b actorID usr uu w)) <> None ->
        fst (fst (userbus.Update b actorID usr uu w)) = User_zero)
  /\ (forall filter orderBy page,
        snd (fst (userbus.Query b filter orderBy page w)) <> None ->
        fst (fst (userbus.Query b filter orderBy page w)) = [])
  /\ (forall userID,
        snd (fst (userbus.QueryByID b userID w)) <> None ->
        fst (fst (userbus.QueryByID b userID w)) = User_zero)
  /\ (forall email,
        snd (fst (userbus.QueryByEmail b email w)) <> None ->
        fst (fst (userbus.QueryByEmail b email w)) = User_zero)
  /\ (forall email password,
        snd (fst (userbus.Authenticate b email password w)) <> None ->
        fst (fst (userbus.Authenticate b email password w)) = User_zero).
Proof.
  repeat match goal with |- _ /\ _ => split end.
  - intros actorID nu. rewrite Create_run.
    destruct (bcrypt.GenerateFromPassword _ _ w) as [[h [e |]] wg];
      [reflexivity |].
    cbv zeta. destruct (userbus.st_Create _ _ _) as [[e |] e3]; cbn;
      [reflexivity | intros H; now elim H].
  - intros actorID usr uu. rewrite Update_run. cbv zeta.
    destruct (uu_Password uu) as [p |].
    + destruct (bcrypt.GenerateFromPassword _ _ w) as [[h [e |]] wg];
        [reflexivity |].
      destruct (userbus.st_Update _ _ _) as [[e |] e3]; cbn;
        [reflexivity | intros H; now elim H].
    + destruct (userbus.st_Update _ _ _) as [[e |] e3]; cbn;
        [reflexivity | intros H; now elim H].
  - intros filter orderBy page. rewrite Query_run.
    destruct (userbus.st_Query _ _ _ _ _) as [[us [e |]] e1]; cbn;
      [reflexivity | intros H; now elim H].
  - intros userID. rewrite QueryByID_run.
    destruct (userbus.st_QueryByID _ _ _) as [[us [e |]] e1]; cbn;
      [reflexivity | intros H; now elim H].
  - intros email. rewrite QueryByEmail_run.
    destruct (userbus.st_QueryByEmail _ _ _) as [[us [e |]] e1]; cbn;
      [reflexivity | intros H; now elim H].
  - intros email password. rewrite Authenticate_run.
    destruct (userbus.st_QueryByEmail _ _ _) as [[us [e |]] e1]; cbn;
      [reflexivity |].
    destruct (bcrypt.CompareHashAndPassword _ _); cbn;
      [reflexivity | intros H; now elim H].
Qed.

(** X5.  Every operation only appends to the trace, and what it appends
    opens with the start of its own span and closes with the end of that
    span, on every way out, failures included. *)
Theorem every_operation_closes_its_span (b : userbus.business S) (w : World) :
  (forall actorID nu,
      let w' := snd (userbus.Create b actorID nu w) in
      trace w' = trace w ++ since w w'
      /\ bracketed "business.userbus.create" (since w w'))
  /\ (forall actorID usr uu,
        let w' := snd (userbus.Update b actorID usr uu w) in
        trace w' = trace w ++ since w w'
        /\ bracketed "business.userbus.update" (since w w'))
  /\ (forall actorID usr,
        let w' := snd (userbus.Delete b actorID usr w) in
        trace w' = trace w ++ since w w'
        /\ bracketed "business.userbus.delete" (since w w'))
  /\ (forall filter orderBy page,
        let w' := snd (userbus.Query b filter orderBy page w) in
        trace w' = trace w ++ since w w'
        /\ bracketed "business.userbus.query" (since w w'))
  /\ (forall filter,
        let w' := snd (userbus.Count b filter w) in
        trace w' = trace w ++ since w w'
        /\ bracketed "business.userbus.count" (since w w'))
  /\ (forall userID,
        let w' := snd (userbus.QueryByID b userID w) in
        trace w' = trace w ++ since w w'
        /\ bracketed "business.userbus.querybyid" (since w w'))
  /\ (forall email,
        let w' := snd (userbus.QueryByEmail b email w) in
        trace w' = trace w ++ since w w'
        /\ bracketed "business.userbus.querybyemail" (since w w'))
  /\ (forall email password,
        let w' := snd (userbus.Authenticate b email password w) in
        trace w' = trace w ++ since w w'
        /\ bracketed "business.userbus.authenticate" (since w w')).
Proof.
  assert (K : forall (w1 : World) name mid,
             trace w1 = trace w ->
             let w' := userbus.emit_all (SpanStart name :: mid ++ [SpanEnd name])
                                        w1 in
             trace w' = trace w ++ since w w'
             /\ bracketed name (since w w')).
  { intros w1 name mid T w'. subst w'.
    rewrite since_emit_all by exact T. split.
    - unfold userbus.emit_all. cbn [trace]. now rewrite T.
    - now exists mid. }
  repeat match goal with |- _ /\ _ => split end.
  - intros actorID nu. rewrite Create_run.
    destruct (bcrypt.GenerateFromPassword _ _ w) as [[h [e |]] wg] eqn:G.
    + apply GenerateFromPassword_frame in G as [T _].
      exact (K wg _ [] T).
    + cbv zeta. destruct (userbus.st_Create _ _ _) as [r e3].
      exact (K (set_env e3 (drawn 3 w)) _ [_] eq_refl).
  - intros actorID usr uu. rewrite Update_run. cbv zeta.
    destruct (uu_Password uu) as [p |].
    + destruct (bcrypt.GenerateFromPassword _ _ w) as [[h [e |]] wg] eqn:G.
      * apply GenerateFromPassword_frame in G as [T _].
        exact (K wg _ [] T).
      * destruct (userbus.st_Update _ _ _) as [r e3].
        exact (K (set_env e3 (drawn 2 w)) _ [_] eq_refl).
    + destruct (userbus.st_Update _ _ _) as [r e3].
      exact (K (set_env e3 (drawn 1 w)) _ [_] eq_refl).
  - intros actorID usr. rewrite Delete_run.
    destruct (userbus.st_Delete _ _ _) as [[e |] e1].
    + exact (K (set_env e1 w) _ [_] eq_refl).
    + cbv zeta. destruct (userbus.dg_Call _ _ _) as [r e2].
      exact (K (set_env e2 w) _ [_; _] eq_refl).
  - intros filter orderBy page. rewrite Query_run.
    destruct (userbus.st_Query _ _ _ _ _) as [r e1]. destruct r.
    exact (K (set_env e1 w) _ [_] eq_refl).
  - intros filter. rewrite Count_run.
    destruct (userbus.st_Count _ _ _) as [r e1].
    exact (K (set_env e1 w) _ [_] eq_refl).
  - intros userID. rewrite QueryByID_run.
    destruct (userbus.st_QueryByID _ _ _) as [r e1]. destruct r.
    exact (K (set_env e1 w) _ [_] eq_refl).
  - intros email. rewrite QueryByEmail_run.
    destruct (userbus.st_QueryByEmail _ _ _) as [r e1]. destruct r.
    exact (K (set_env e1 w) _ [_] eq_refl).
  - intros email password. rewrite Authenticate_run.
    destruct (userbus.st_QueryByEmail _ _ _) as [r e1]. destruct r.
    exact (K (set_env e1 w) _ [_; _; _] eq_refl).
Qed.


(** X6.  [Query], [Count], [QueryByID], [QueryByEmail] and [Authenticate]
    make one call to the storage port, the lookup itself, and none to the
    delegate; they draw no value from the clock, the identifiers or the
    random bytes; the state behind the ports is the one the lookup left.
    When the lookup succeeds its result is returned as it is ([Count] returns
    the pair of the port in every case). *)
Theorem lookups_only_read (b : userbus.business S) (w : World) :
  (forall filter orderBy page,
      let port := userbus.st_Query (userbus.storer b) filter orderBy page
                                   (env w) in
      let r := userbus.Query b filter orderBy page w in
      storer_calls (since w (snd r)) = [OpQuery filter orderBy page]
      /\ delegate_calls (since w (snd r)) = []
      /\ reads (snd r) = reads w
      /\ env (snd r) = snd port
      /\ (snd (fst port) = None -> fst r = (fst (fst port), None)))
  /\ (forall filter,
        let port := userbus.st_Count (userbus.storer b) filter (env w) in
        let r := userbus.Count b filter w in
        storer_calls (since w (snd r)) = [OpCount filter]
        /\ delegate_calls (since w (snd r)) = []
        /\ reads (snd r) = reads w
        /\ env (snd r) = snd port
        /\ fst r = fst port)
  /\ (forall userID,
        let port := userbus.st_QueryByID (userbus.storer b) userID (env w) in
        let r := userbus.QueryByID b userID w in
        storer_calls (since w (snd r)) = [OpQueryByID userID]
        /\ delegate_calls (since w (snd r)) = []
        /\ reads (snd r) = reads w
        /\ env (snd r) = snd port
        /\ (snd (fst port) = None -> fst r = (fst (fst port), None)))
  /\ (forall email,
        let port := userbus.st_QueryByEmail (userbus.storer b) email (env w) in
        let r := userbus.QueryByEmail b email w in
        storer_calls (since w (snd r)) = [OpQueryByEmail email]
        /\ delegate_calls (since w (snd r)) = []
        /\ reads (snd r) = reads w
        /\ env (snd r) = snd port
        /\ (snd (fst port) = None -> fst r = (fst (fst port), None)))
  /\ (forall email password,
        let port := userbus.st_QueryByEmail (userbus.storer b) email (env w) in
        let r := userbus.Authenticate b email password w in
        storer_calls (since w (snd r)) = [OpQueryByEmail email]
        /\ delegate_calls (since w (snd r)) = []
        /\ reads (snd r) = reads w
        /\ env (snd r) = snd port).
Proof.
  repeat match goal with |- _ /\ _ => split end.
  - intros filter orderBy page. cbv zeta. rewrite Query_run.
    destruct (userbus.st_Query _ _ _ _ _) as [[us [e |]] e1];
      cbn [fst snd]; rewrite since_emit_all by reflexivity;
      repeat split; discriminate.
  - intros filter. cbv zeta. rewrite Count_run.
    destruct (userbus.st_Count _ _ _) as [r e1];
      cbn [fst snd]; rewrite since_emit_all by reflexivity;
      repeat split.
  - intros userID. cbv zeta. rewrite QueryByID_run.
    destruct (userbus.st_QueryByID _ _ _) as [[us [e |]] e1];
      cbn [fst snd]; rewrite since_emit_all by reflexivity;
      repeat split; discriminate.
  - intros email. cbv zeta. rewrite QueryByEmail_run.
    destruct (userbus.st_QueryByEmail _ _ _) as [[us [e |]] e1];
      cbn [fst snd]; rewrite since_emit_all by reflexivity;
      repeat split; discriminate.
  - intros email password. cbv zeta. rewrite Authenticate_run.
    destruct (userbus.st_QueryByEmail _ _ _) as [[us e] e1];
      cbn [fst snd]; rewrite since_emit_all by reflexivity;
      repeat split.
Qed.

(** X7.  What [Authenticate] does to the world (the state behind the
    ports and the trace) does not depend on the password, nor on whether it
    matched. *)
Theorem Authenticate_effects_ignore_password (b : userbus.business S)
        (email : mail.Address) (p q : string) (w : World) :
  snd (userbus.Authenticate b email p w)
  = snd (userbus.Authenticate b email q w).
Proof.
  rewrite !Authenticate_run.
  now destruct (userbus.st_QueryByEmail _ _ _) as [[us e] e1].
Qed.

(** X8.  An [Update] that carries no password leaves the hash alone: the
    password given at [Create] still authenticates the updated record, also
    when the request disables the account or changes the email. *)
Theorem Update_without_password_keeps_login (b : userbus.business S)
        (actorID : uuid.UUID) (nu : NewUser) (w : World) (u : User)
        (w1 : World) (actorID2 : uuid.UUID) (uu : UpdateUser) (w2 : World)
        (u' : User) (w3 w4 : World) (e4 : Env) :
  userbus.Create b actorID nu w = ((u, None), w1) ->
  uu_Password uu = None ->
  userbus.Update b actorID2 u uu w2 = ((u', None), w3) ->
  userbus.st_QueryByEmail (userbus.storer b) (Email u') (env w4)
  = ((u', None), e4) ->
  PasswordHash u' = PasswordHash u
  /\ fst (userbus.Authenticate b (Email u') (nu_Password nu) w4) = (u', None).
Proof.
  intros C Hp U Q.
  assert (Hh : PasswordHash u' = PasswordHash u).
  { rewrite Update_run, Hp in U. cbv beta zeta in U.
    destruct (userbus.st_Update _ _ _) as [[e |] e3]; inversion U.
    reflexivity. }
  split; [exact Hh |].
  apply Create_hashing in C. unfold userbus.hashing in C.
  destruct (bcrypt.GenerateFromPassword _ _ w) as [r wg] eqn:G.
  cbn [fst] in C. subst r.
  apply Compare_generated in G as (Hc & _).
  erewrite Authenticate_found by exact Q. now rewrite Hh, Hc.
Qed.

(** X9.  After an [Update] that carries a password, [Authenticate] with
    that password returns the updated record. *)
Theorem Update_with_password_changes_login (b : userbus.business S)
        (actorID : uuid.UUID) (usr : User) (uu : UpdateUser) (w : World)
        (p : string) (u' : User) (w' w2 : World) (e2 : Env) :
  uu_Password uu = Some p ->
  userbus.Update b actorID usr uu w = ((u', None), w') ->
  userbus.st_QueryByEmail (userbus.storer b) (Email u') (env w2)
  = ((u', None), e2) ->
  fst (userbus.Authenticate b (Email u') p w2) = (u', None).
Proof.
  intros Hp U Q.
  rewrite Update_run, Hp in U. cbv beta zeta in U.
  destruct (bcrypt.GenerateFromPassword _ _ w) as [[h [e |]] wg] eqn:G;
    [discriminate |].
  cbv beta zeta in U.
  destruct (userbus.st_Update _ _ _) as [[e |] e3]; inversion U; subst u'.
  apply Compare_generated in G as (Hc & _).
  erewrite Authenticate_found by exact Q.
  cbn [merged PasswordHash userbus.pick]. now rewrite Hc.
Qed.

(** X10.  Applying a request without a password a second time changes
    nothing but [DateUpdated]. *)
Theorem Update_twice_is_Update_once (b : userbus.business S)
        (actorID actorID2 : uuid.UUID) (usr : User) (uu : UpdateUser)
        (w w1 w2 w3 : World) (u1 u2 : User) :
  uu_Password uu = None ->
  userbus.Update b actorID usr uu w = ((u1, None), w1) ->
  userbus.Update b actorID2 u1 uu w2 = ((u2, None), w3) ->
  u2 = userbus.set_DateUpdated (DateUpdated u2) u1.
Proof.
  intros Hp U1 U2.
  rewrite Update_run, Hp in U1. rewrite Update_run, Hp in U2.
  cbv beta zeta in U1, U2.
  destruct (userbus.st_Update _ _ (env w)) as [[e |] e3]; inversion U1.
  destruct (userbus.st_Update _ _ (env w2)) as [[e |] e4]; inversion U2.
  subst u1. rewrite merged_again. reflexivity.
Qed.

(** X11.  [Update] returns no error exactly when the password, if there
    is one, could be hashed and the storage port took the merged record; and
    when that holds, what [Update] returns is the merged record with no
    error, with the time read after the hashing. *)
Theorem Update_succeeds_iff (b : userbus.business S) (actorID : uuid.UUID)
        (usr : User) (uu : UpdateUser) (w : World) :
  (uu_Password uu = None ->
   let u := merged usr uu None (clock w (reads w)) in
   (snd (fst (userbus.Update b actorID usr uu w)) = None
    <-> fst (userbus.st_Update (userbus.storer b) u (env w)) = None)
   /\ (fst (userbus.st_Update (userbus.storer b) u (env w)) = None ->
       fst (userbus.Update b actorID usr uu w) = (u, None)))
  /\ (forall p,
        uu_Password uu = Some p ->
        (snd (fst (userbus.Update b actorID usr uu w)) = None
         <-> exists h,
               userbus.hashing p w = (h, None)
               /\ fst (userbus.st_Update (userbus.storer b)
                          (merged usr uu (Some h) (clock w (1 + reads w)))
                          (env w)) = None)
        /\ (forall h,
              userbus.hashing p w = (h, None) ->
              fst (userbus.st_Update (userbus.storer b)
                     (merged usr uu (Some h) (clock w (1 + reads w)))
                     (env w)) = None ->
              fst (userbus.Update b actorID usr uu w)
              = (merged usr uu (Some h) (clock w (1 + reads w)), None))).
Proof.
  split.
  - intros Hp. cbv zeta. rewrite Update_run, Hp. cbv beta zeta. cbn [Nat.add].
    destruct (userbus.st_Update _ _ _) as [[e |] e3]; cbn [fst snd].
    + split; [split; discriminate | discriminate].
    + split; [split; reflexivity | reflexivity].
  - intros p Hp. rewrite Update_run, Hp. cbv beta zeta.
    unfold userbus.hashing.
    destruct (bcrypt.GenerateFromPassword _ _ w) as [[h [e |]] wg].
    + cbn [fst snd]. split.
      * split; [discriminate |]. intros (h' & H & _). discriminate.
      * intros h' H. discriminate.
    + cbv beta zeta.
      destruct (userbus.st_Update _ _ _) as [[e |] e3] eqn:U; cbn [fst snd].
      * split.
        -- split; [discriminate |]. intros (h' & H & U').
           inversion H; subst h'. rewrite U in U'. discriminate.
        -- intros h' H U'. inversion H; subst h'. rewrite U in U'.
           discriminate.
      * split.
        -- split; [| reflexivity]. intros _. exists h. rewrite U.
           now split.
        -- intros h' H _. inversion H; subst h'. reflexivity.
Qed.

(** X12.  [Delete] returns no error exactly when the storage delete and
    the delegate both succeed.  When the storage delete fails the delegate
    is not called; when it succeeds the delegate is called once, with the
    event of the deleted user, on the state the delete left. *)
Theorem Delete_succeeds_iff (b : userbus.business S) (actorID : uuid.UUID)
        (usr : User) (w : World) :
  let deleted := userbus.st_Delete (userbus.storer b) usr (env w) in
  let told := userbus.dg_Call (userbus.delegate b)
                              (userbus.ActionDeletedData (ID usr))
                              (snd deleted) in
  (fst (userbus.Delete b actorID usr w) = None
   <-> fst deleted = None /\ fst told = None)
  /\ (fst deleted <> None ->
      delegate_calls (since w (snd (userbus.Delete b actorID usr w))) = []
      /\ env (snd (userbus.Delete b actorID usr w)) = snd deleted)
  /\ (fst deleted = None ->
      delegate_calls (since w (snd (userbus.Delete b actorID usr w)))
      = [userbus.ActionDeletedData (ID usr)]
      /\ env (snd (userbus.Delete b actorID usr w)) = snd told).
Proof.
  cbv zeta. rewrite Delete_run.
  destruct (userbus.st_Delete _ _ _) as [[e |] e1]; cbn [fst snd].
  - rewrite since_emit_all by reflexivity.
    repeat split; try discriminate; try tauto.
    intros [H _]; discriminate.
  - cbv zeta. destruct (userbus.dg_Call _ _ _) as [[de |] e2]; cbn [fst snd];
      rewrite since_emit_all by reflexivity;
      repeat split; try discriminate; try tauto.
    intros [_ H]; discriminate.
Qed.


(** X13.  [Create] and [Update] never call the delegate.  They call the
    storage port once, with the record they built, when the hashing
    succeeded (or no password was given); when it failed they do not call
    it at all and the state behind the ports is unchanged. *)
Theorem writes_reach_storage_once (b : userbus.business S) (w : World) :
  (forall actorID nu,
      let r := userbus.Create b actorID nu w in
      delegate_calls (since w (snd r)) = []
      /\ (snd (userbus.hashing (nu_Password nu) w) <> None ->
          storer_calls (since w (snd r)) = [] /\ env (snd r) = env w)
      /\ (forall h, userbus.hashing (nu_Password nu) w = (h, None) ->
                    storer_calls (since w (snd r))
                    = [OpCreate (created_record nu h w)]))
  /\ (forall actorID usr uu,
        let r := userbus.Update b actorID usr uu w in
        delegate_calls (since w (snd r)) = []
        /\ (uu_Password uu = None ->
            storer_calls (since w (snd r))
            = [OpUpdate (merged usr uu None (clock w (reads w)))])
        /\ (forall p,
              uu_Password uu = Some p ->
              snd (userbus.hashing p w) <> None ->
              storer_calls (since w (snd r)) = [] /\ env (snd r) = env w)
        /\ (forall p h,
              uu_Password uu = Some p ->
              userbus.hashing p w = (h, None) ->
              storer_calls (since w (snd r))
              = [OpUpdate (merged usr uu (Some h) (clock w (1 + reads w)))])).
Proof.
  split.
  - intros actorID nu. cbv zeta. rewrite Create_run. unfold userbus.hashing.
    destruct (bcrypt.GenerateFromPassword _ _ w) as [[h [e |]] wg] eqn:G.
    + apply GenerateFromPassword_frame in G as [T E].
      cbn [fst snd]. rewrite since_emit_all by exact T.
      repeat split; [exact E | discriminate].
    + cbv zeta. destruct (userbus.st_Create _ _ _) as [r e3].
      cbn [fst snd]. rewrite since_emit_all by reflexivity.
      split; [reflexivity |]. split; [intros H; now elim H |].
      intros h' H. now inversion H.
  - intros actorID usr uu. cbv zeta. rewrite Update_run. cbv beta zeta.
    unfold userbus.hashing.
    destruct (uu_Password uu) as [p |].
    + destruct (bcrypt.GenerateFromPassword _ _ w) as [[h [e |]] wg] eqn:G.
      * pose proof G as G'. apply GenerateFromPassword_frame in G' as [T E].
        cbn [fst snd]. rewrite since_emit_all by exact T.
        split; [reflexivity |]. split; [discriminate |]. split.
        -- intros p' _ _. split; [reflexivity | exact E].
        -- intros p' h' Hp H. inversion Hp; subst p'. rewrite G in H.
           discriminate.
      * destruct (userbus.st_Update _ _ _) as [r e3].
        cbn [fst snd]. rewrite since_emit_all by reflexivity.
        split; [reflexivity |]. split; [discriminate |]. split.
        -- intros p' Hp H. inversion Hp; subst p'. rewrite G in H.
           now elim H.
        -- intros p' h' Hp H. inversion Hp; subst p'. rewrite G in H.
           now inversion H.
    + destruct (userbus.st_Update _ _ _) as [r e3].
      cbn [fst snd]. rewrite since_emit_all by reflexivity.
      split; [reflexivity |]. split; [reflexivity |]. split.
      * intros p Hp. discriminate.
      * intros p h Hp. discriminate.
Qed.

End RunFacts.


Lemma le_73 : 72 < 73.
Proof. apply le_n. Qed.

(** X1: a request with a password of 73 bytes. *)
Lemma Create_refuses_long_password_witness :
  72 < length (list_byte_of_string (nu_Password fixtures.long))
  /\ userbus.Create memory.bus memory.actor fixtures.long memory.world0
     = ((User_zero,
         Some (fmt.Errorf_w "generatefrompassword: " bcrypt.ErrPasswordTooLong)),
        userbus.emit_all [SpanStart "business.userbus.create";
                          SpanEnd "business.userbus.create"] memory.world0).
Proof.
  assert (L : 72 < length (list_byte_of_string (nu_Password fixtures.long)))
    by exact le_73.
  split; [exact L |].
  exact (Create_refuses_long_password memory.bus memory.actor fixtures.long
                                      memory.world0 L).
Defined.

(** X3: Ada is created a second time; the storage port answers
    [ErrUniqueEmail], and [errors.Is] finds it in what [Create] returns. *)
Lemma storage_error_stays_in_reach_witness :
  let w := memory.world1 in
  let h := fixtures.ada_hash in
  userbus.hashing (nu_Password memory.ada) w = (h, None)
  /\ userbus.st_Create (userbus.storer memory.bus)
                       (created_record memory.ada h w) (env w)
     = (Some userbus.ErrUniqueEmail, env w)
  /\ errors.Is userbus.ErrUniqueEmail userbus.ErrUniqueEmail = true
  /\ exists e,
       fst (userbus.Create memory.bus memory.actor memory.ada w)
       = (User_zero, Some e)
       /\ errors.Is e userbus.ErrUniqueEmail = true.
Proof.
  cbv zeta.
  assert (H : userbus.hashing (nu_Password memory.ada) memory.world1
              = (fixtures.ada_hash, None)) by (vm_compute; reflexivity).
  assert (C : userbus.st_Create (userbus.storer memory.bus)
                (created_record memory.ada fixtures.ada_hash memory.world1)
                (env memory.world1)
              = (Some userbus.ErrUniqueEmail, env memory.world1))
    by (vm_compute; reflexivity).
  split; [exact H |]. split; [exact C |]. split; [reflexivity |].
  exact (proj1 (storage_error_stays_in_reach memory.bus memory.world1
                                             userbus.ErrUniqueEmail)
               memory.actor memory.ada fixtures.ada_hash
               userbus.ErrUniqueEmail (env memory.world1) H C eq_refl).
Defined.

(** X8: Ada is retired (disabled, new department) and still
    authenticates with her password. *)
Lemma Update_without_password_keeps_login_witness :
  let u := memory.ada_user in
  let u' := fst (fst fixtures.retired) in
  let w3 := snd fixtures.retired in
  userbus.Create memory.bus memory.actor memory.ada memory.world0
  = ((u, None), memory.world1)
  /\ uu_Password fixtures.retire = None
  /\ userbus.Update memory.bus memory.actor u fixtures.retire memory.world1
     = ((u', None), w3)
  /\ userbus.st_QueryByEmail (userbus.storer memory.bus) (Email u') (env w3)
     = ((u', None), env w3)
  /\ Enabled u' = false
  /\ (PasswordHash u' = PasswordHash u
      /\ fst (userbus.Authenticate memory.bus (Email u')
                                   (nu_Password memory.ada) w3)
         = (u', None)).
Proof.
  cbv zeta.
  assert (C : userbus.Create memory.bus memory.actor memory.ada memory.world0
              = ((memory.ada_user, None), memory.world1))
    by (apply (returned_ok memory.created); vm_compute; reflexivity).
  assert (U : userbus.Update memory.bus memory.actor memory.ada_user
                             fixtures.retire memory.world1
              = ((fst (fst fixtures.retired), None), snd fixtures.retired))
    by (apply (returned_ok fixtures.retired); vm_compute; reflexivity).
  assert (Q : userbus.st_QueryByEmail (userbus.storer memory.bus)
                (Email (fst (fst fixtures.retired)))
                (env (snd fixtures.retired))
              = ((fst (fst fixtures.retired), None),
                 env (snd fixtures.retired)))
    by (vm_compute; reflexivity).
  split; [exact C |]. split; [reflexivity |]. split; [exact U |].
  split; [exact Q |]. split; [vm_compute; reflexivity |].
  eapply Update_without_password_keeps_login with (uu := fixtures.retire);
    [exact C | reflexivity | exact U | exact Q].
Defined.

(** X9: Ada authenticates with the password set by [disable]. *)
Lemma Update_with_password_changes_login_witness :
  let u' := fixtures.ada_disabled in
  let w' := fixtures.world2 in
  uu_Password memory.disable = Some "n3w-s3cret"%string
  /\ userbus.Update memory.bus memory.actor memory.ada_user memory.disable
                    memory.world1
     = ((u', None), w')
  /\ userbus.st_QueryByEmail (userbus.storer memory.bus) (Email u') (env w')
     = ((u', None), env w')
  /\ fst (userbus.Authenticate memory.bus (Email u') "n3w-s3cret" w')
     = (u', None).
Proof.
  cbv zeta.
  assert (U : userbus.Update memory.bus memory.actor memory.ada_user
                             memory.disable memory.world1
              = ((fixtures.ada_disabled, None), fixtures.world2))
    by (apply (returned_ok memory.updated); vm_compute; reflexivity).
  assert (Q : userbus.st_QueryByEmail (userbus.storer memory.bus)
                (Email fixtures.ada_disabled) (env fixtures.world2)
              = ((fixtures.ada_disabled, None), env fixtures.world2))
    by (vm_compute; reflexivity).
  split; [reflexivity |]. split; [exact U |]. split; [exact Q |].
  eapply Update_with_password_changes_login with (uu := memory.disable);
    [reflexivity | exact U | exact Q].
Defined.

(** X10: Ada is retired twice. *)
Lemma Update_twice_is_Update_once_witness :
  let u1 := fst (fst fixtures.retired) in
  let w1 := snd fixtures.retired in
  let u2 := fst (fst fixtures.retired_again) in
  let w3 := snd fixtures.retired_again in
  uu_Password fixtures.retire = None
  /\ userbus.Update memory.bus memory.actor memory.ada_user fixtures.retire
                    memory.world1
     = ((u1, None), w1)
  /\ userbus.Update memory.bus memory.actor u1 fixtures.retire w1
     = ((u2, None), w3)
  /\ u2 = userbus.set_DateUpdated (DateUpdated u2) u1.
Proof.
  cbv zeta.
  assert (U1 : userbus.Update memory.bus memory.actor memory.ada_user
                              fixtures.retire memory.world1
               = ((fst (fst fixtures.retired), None), snd fixtures.retired))
    by (apply (returned_ok fixtures.retired); vm_compute; reflexivity).
  assert (U2 : userbus.Update memory.bus memory.actor
                              (fst (fst fixtures.retired)) fixtures.retire
                              (snd fixtures.retired)
               = ((fst (fst fixtures.retired_again), None),
                  snd fixtures.retired_again))
    by (vm_compute; reflexivity).
  split; [reflexivity |]. split; [exact U1 |]. split; [exact U2 |].
  eapply Update_twice_is_Update_once with (uu := fixtures.retire);
    [reflexivity | exact U1 | exact U2].
Defined.

Lemma hashed_ok {A : Type} (x : A * option error) :
  snd x = None -> x = (fst x, None).
Proof. destruct x as [a e]; simpl; intros ->; reflexivity. Qed.

(** X2: Ada is created in the empty world; the hashing and the storage
    port both succeed, and [Create] returns the record it built. *)
Lemma Create_succeeds_iff_witness :
  let w := memory.world0 in
  let h := fst (userbus.hashing (nu_Password memory.ada) w) in
  userbus.hashing (nu_Password memory.ada) w = (h, None)
  /\ fst (userbus.st_Create (userbus.storer memory.bus)
                            (created_record memory.ada h w) (env w)) = None
  /\ snd (fst (userbus.Create memory.bus memory.actor memory.ada w)) = None
  /\ fst (userbus.Create memory.bus memory.actor memory.ada w)
     = (created_record memory.ada h w, None).
Proof.
  cbv zeta.
  assert (H : userbus.hashing (nu_Password memory.ada) memory.world0
              = (fst (userbus.hashing (nu_Password memory.ada) memory.world0),
                 None))
    by (apply hashed_ok; vm_compute; reflexivity).
  assert (C : fst (userbus.st_Create (userbus.storer memory.bus)
                     (created_record memory.ada
                        (fst (userbus.hashing (nu_Password memory.ada)
                                              memory.world0))
                        memory.world0)
                     (env memory.world0)) = None)
    by (vm_compute; reflexivity).
  destruct (Create_succeeds_iff memory.bus memory.actor memory.ada
                                memory.world0) as [I R].
  split; [exact H |]. split; [exact C |]. split.
  - apply I. eexists. split; [exact H | exact C].
  - exact (R _ H C).
Defined.

(** X11: Ada's account is disabled with a new password; the hashing and the
    storage port both succeed, and [Update] returns the merged record. *)
Lemma Update_succeeds_iff_witness :
  let w := memory.world1 in
  let h := fst (userbus.hashing "n3w-s3cret" w) in
  let u := merged memory.ada_user memory.disable (Some h)
                  (clock w (1 + reads w)) in
  uu_Password memory.disable = Some "n3w-s3cret"%string
  /\ userbus.hashing "n3w-s3cret" w = (h, None)
  /\ fst (userbus.st_Update (userbus.storer memory.bus) u (env w)) = None
  /\ snd (fst (userbus.Update memory.bus memory.actor memory.ada_user
                              memory.disable w)) = None
  /\ fst (userbus.Update memory.bus memory.actor memory.ada_user
                         memory.disable w)
     = (u, None).
Proof.
  cbv zeta.
  assert (H : userbus.hashing "n3w-s3cret" memory.world1
              = (fst (userbus.hashing "n3w-s3cret" memory.world1), None))
    by (apply hashed_ok; vm_compute; reflexivity).
  assert (U : fst (userbus.st_Update (userbus.storer memory.bus)
                     (merged memory.ada_user memory.disable
                        (Some (fst (userbus.hashing "n3w-s3cret"
                                                    memory.world1)))
                        (clock memory.world1 (1 + reads memory.world1)))
                     (env memory.world1)) = None)
    by (vm_compute; reflexivity).
  destruct (Update_succeeds_iff memory.bus memory.actor memory.ada_user
                                memory.disable memory.world1) as [_ P].
  destruct (P "n3w-s3cret"%string eq_refl) as [I R].
  split; [reflexivity |]. split; [exact H |]. split; [exact U |]. split.
  - apply I. eexists. split; [exact H | exact U].
  - exact (R _ H U).
Defined.

(** X13: a rename that carries a password of 73 bytes reaches neither the
    storage port nor the delegate, and leaves the stored rows as they
    were. *)
Lemma writes_reach_storage_once_witness :
  let w := memory.world1 in
  let r := userbus.Update memory.bus memory.actor memory.ada_user
                          memory.rename w in
  uu_Password memory.rename = Some memory.p73
  /\ snd (userbus.hashing memory.p73 w) <> None
  /\ delegate_calls (since w (snd r)) = []
  /\ storer_calls (since w (snd r)) = []
  /\ env (snd r) = env w.
Proof.
  cbv zeta.
  assert (H : snd (userbus.hashing memory.p73 memory.world1) <> None)
    by (vm_compute; discriminate).
  destruct (writes_reach_storage_once memory.bus memory.world1) as [_ U].
  destruct (U memory.actor memory.ada_user memory.rename) as (D & _ & F & _).
  destruct (F memory.p73 eq_refl H) as [N E].
  split; [reflexivity |]. split; [exact H |]. split; [exact D |].
  split; [exact N | exact E].
Defined.
